(** * Symbol resolution and the /predict guard of backend/app.py

    A shallow embedding of [get_stock_symbol] and [predict_stock].

    - Python [str] values are modelled by [string] over the ASCII alphabet:
      [strip] and [upper] follow CPython on code points below 128; a
      character from 128 on is kept as it is and is never whitespace.
    - Python floats are modelled by the rational number they denote.
    - The collaborators (yfinance, the prediction pipeline) are oracles held
      in a [world]; every use of one is recorded in the trace of the
      computation, next to the log records, so that the number and the order
      of outbound calls can be stated.
    - Exceptions are instances of subclasses of [Exception], which is what
      the [except Exception] clauses of the source catch.
    - A request either carries a JSON document or carries none; for the
      latter, evaluating [request.json] raises the HTTP exception of the
      framework (Flask 2.1 and later), outside every [try] of the route. *)

From Stdlib Require Import String Ascii List Bool NArith ZArith QArith Lia.
From Stdlib Require Import Qround DecimalString.
Import ListNotations.
Open Scope string_scope.

(** ** Text *)

Module Str.

(** [str.isspace] on one ASCII character: TAB, LF, VT, FF, CR, the four
    separators FS GS RS US, and the space. *)
Definition isspace (c : ascii) : bool :=
  let n := N_of_ascii c in
  ((9 <=? n) && (n <=? 13) || (28 <=? n) && (n <=? 32))%N.

Definition islower (c : ascii) : bool :=
  let n := N_of_ascii c in
  ((97 <=? n) && (n <=? 122))%N.

Definition upper_char (c : ascii) : ascii :=
  if islower c then ascii_of_N (N_of_ascii c - 32) else c.

(** [s.upper()] *)
Fixpoint upper (s : string) : string :=
  match s with
  | EmptyString => EmptyString
  | String c s' => String (upper_char c) (upper s')
  end.

(** [s.lstrip()] *)
Fixpoint lstrip (s : string) : string :=
  match s with
  | EmptyString => EmptyString
  | String c s' => if isspace c then lstrip s' else s
  end.

(** [s.rstrip()] *)
Fixpoint rstrip (s : string) : string :=
  match s with
  | EmptyString => EmptyString
  | String c s' =>
      match rstrip s' with
      | EmptyString => if isspace c then EmptyString else String c EmptyString
      | r => String c r
      end
  end.

(** [s.strip()] *)
Definition strip (s : string) : string := rstrip (lstrip s).

(** [t in s] *)
Fixpoint contains (s t : string) : bool :=
  if String.prefix t s then true
  else match s with
       | EmptyString => false
       | String _ s' => contains s' t
       end.

(** The string has no lowercase letter. *)
Fixpoint no_lowercase (s : string) : bool :=
  match s with
  | EmptyString => true
  | String c s' => negb (islower c) && no_lowercase s'
  end.

Fixpoint last_char (c : ascii) (s : string) : ascii :=
  match s with
  | EmptyString => c
  | String c' s' => last_char c' s'
  end.

(** Neither the first nor the last character is whitespace. *)
Definition no_surrounding_whitespace (s : string) : bool :=
  match s with
  | EmptyString => true
  | String c s' => negb (isspace c) && negb (isspace (last_char c s'))
  end.

End Str.

(** ** Exceptions, results and the trace monad *)

(** An exception object: its class and [str(e)]. *)
Record exn : Type := mkExn { exn_class : string; exn_str : string }.

Definition ValueError (msg : string) : exn := mkExn "ValueError" msg.
Definition KeyError (key : string) : exn := mkExn "KeyError" ("'" ++ key ++ "'").
Definition TypeError (msg : string) : exn := mkExn "TypeError" msg.
Definition AttributeError (msg : string) : exn := mkExn "AttributeError" msg.

Inductive py_result (A : Type) : Type :=
| Return (a : A)
| Raise (e : exn).
Arguments Return {A} a.
Arguments Raise {A} e.

Inductive level : Type := INFO | WARNING | ERROR.

(** What a computation does to the outside: log records and calls of the
    collaborators. *)
Inductive event : Type :=
| Log (lvl : level) (msg : string)
| History (symbol period : string)
| TickerInfo (symbol : string)
| Pipeline (symbol : string) (window_size prediction_days : Z).

Definition M (A : Type) : Type := (py_result A * list event)%type.

Definition ret {A} (a : A) : M A := (Return a, []).
Definition raise {A} (e : exn) : M A := (Raise e, []).
Definition emit (ev : event) : M unit := (Return tt, [ev]).

Definition bind {A B} (m : M A) (k : A -> M B) : M B :=
  match m with
  | (Return a, tr) => let (r, tr') := k a in (r, (tr ++ tr')%list)
  | (Raise e, tr) => (Raise e, tr)
  end.

(** [try: body  except Exception as e: handler e] *)
Definition try_except {A} (body : M A) (handler : exn -> M A) : M A :=
  match body with
  | (Return a, tr) => (Return a, tr)
  | (Raise e, tr) => let (r, tr') := handler e in (r, (tr ++ tr')%list)
  end.

(** Lifts the answer of a collaborator, recording the call. *)
Definition call {A} (ev : event) (answer : py_result A) : M A :=
  (answer, [ev]).

Declare Scope py_scope.
Delimit Scope py_scope with py.
Notation "x <- m ;; k" := (bind m (fun x => k))
  (at level 100, m at next level, right associativity) : py_scope.
Notation "m ;;; k" := (bind m (fun _ => k))
  (at level 100, right associativity) : py_scope.
Open Scope py_scope.

Definition result_of {A} (m : M A) : py_result A := fst m.
Definition trace_of {A} (m : M A) : list event := snd m.

Definition logging_info (msg : string) : M unit := emit (Log INFO msg).
Definition logging_warning (msg : string) : M unit := emit (Log WARNING msg).
Definition logging_error (msg : string) : M unit := emit (Log ERROR msg).

(** ** Values and dictionaries *)

(** JSON documents; also the values held by the dictionaries the
    collaborators return. A dictionary keeps its insertion order. *)
#[warnings="-register-all"]
Inductive value : Type :=
| VNone
| VBool (b : bool)
| VNum (q : Q)
| VStr (s : string)
| VList (l : list value)
| VDict (d : list (string * value)).

Definition dict (V : Type) : Type := list (string * V).

(** [d.get(k)], [None] when absent. *)
Fixpoint dict_get {V} (d : dict V) (k : string) : option V :=
  match d with
  | [] => None
  | (k', v) :: d' => if String.eqb k k' then Some v else dict_get d' k
  end.

(** [d[k] = v]: overwrites in place, or appends a new key. *)
Fixpoint dict_set {V} (d : dict V) (k : string) (v : V) : dict V :=
  match d with
  | [] => [(k, v)]
  | (k', v') :: d' =>
      if String.eqb k k' then (k', v) :: d' else (k', v') :: dict_set d' k v
  end.

(** [{**d1, **d2}] *)
Definition dict_update {V} (d1 d2 : dict V) : dict V :=
  fold_left (fun acc kv => dict_set acc (fst kv) (snd kv)) d2 d1.

(** [d[k]], raising [KeyError] when absent. *)
Definition dict_item (d : dict value) (k : string) : M value :=
  match dict_get d k with
  | Some v => ret v
  | None => raise (KeyError k)
  end.

(** ** The collaborators *)

(** The frame returned by [Ticker.history]: only its shape matters. *)
Record DataFrame : Type := mkFrame { n_rows : N; n_cols : N }.

(** [df.empty]: some axis has length 0. *)
Definition empty (df : DataFrame) : bool :=
  ((n_rows df =? 0) || (n_cols df =? 0))%N.

Record world : Type := mkWorld {
  (** [yf.Ticker(symbol).history(period=period)] *)
  yf_history : string -> string -> py_result DataFrame;
  (** [yf.Ticker(symbol).info] *)
  yf_info : string -> py_result (dict value);
  (** [run_full_pipeline(symbol, window_size=, prediction_days=)] *)
  run_full_pipeline : string -> Z -> Z -> py_result (dict value)
}.

Definition Ticker_history (w : world) (symbol period : string) : M DataFrame :=
  call (History symbol period) (yf_history w symbol period).

Definition Ticker_info (w : world) (symbol : string) : M (dict value) :=
  call (TickerInfo symbol) (yf_info w symbol).

Definition call_pipeline (w : world) (symbol : string) (ws pd : Z)
  : M (dict value) :=
  call (Pipeline symbol ws pd) (run_full_pipeline w symbol ws pd).

(** ** get_stock_symbol *)

Definition common_mappings : dict string :=
  [ ("APPLE", "AAPL");
    ("GOOGLE", "GOOGL");
    ("MICROSOFT", "MSFT");
    ("AMAZON", "AMZN");
    ("TESLA", "TSLA");
    ("META", "META");
    ("NETFLIX", "NFLX");
    ("NVIDIA", "NVDA");
    ("ADOBE", "ADBE");
    ("SALESFORCE", "CRM") ].

(** The message of the [ValueError] of the last line. *)
Definition not_found_message (name_or_symbol : string) : string :=
  "Could not find a ticker symbol for '" ++ name_or_symbol
  ++ "'. Please try a valid stock symbol like AAPL, GOOGL, etc.".

(** The [try] statement: [Some sym] when its body returned [sym] from the
    function, [None] when control falls through to the mappings. *)
Definition direct_lookup (w : world) (name_or_symbol : string)
  : M (option string) :=
  try_except
    (hist <- Ticker_history w name_or_symbol "1d" ;;
     if negb (empty hist)
     then (logging_info ("Symbol resolved directly: " ++ name_or_symbol) ;;;
           ret (Some name_or_symbol))
     else ret None)
    (fun e =>
       logging_warning ("Direct symbol lookup failed for " ++ name_or_symbol
                        ++ ": " ++ exn_str e) ;;;
       ret None).

Definition get_stock_symbol (w : world) (name_or_symbol : string) : M string :=
  let name_or_symbol := Str.upper (Str.strip name_or_symbol) in
  direct <- direct_lookup w name_or_symbol ;;
  match direct with
  | Some symbol => ret symbol
  | None =>
      match dict_get common_mappings name_or_symbol with
      | Some mapped =>
          logging_info ("Symbol resolved from mapping: " ++ name_or_symbol
                        ++ " -> " ++ mapped) ;;;
          ret mapped
      | None =>
          logging_error ("Could not find a ticker symbol for '"
                         ++ name_or_symbol ++ "'.") ;;;
          raise (ValueError (not_found_message name_or_symbol))
      end
  end.

(** ** Numbers in text *)

(** The integer nearest to [x], ties to the even one. *)
Definition round_half_even (x : Q) : Z :=
  let fl := Qfloor x in
  match Qcompare (x - inject_Z fl) (1 # 2) with
  | Lt => fl
  | Gt => (fl + 1)%Z
  | Eq => if Z.even fl then fl else (fl + 1)%Z
  end.

Definition digits (n : Z) : string := NilZero.string_of_uint (N.to_uint (Z.to_N n)).

(** [format(x, ".2f")] for a number [0 <= x]. *)
Definition format_2f_abs (x : Q) : string :=
  let cents := round_half_even (x * 100) in
  let frac := (cents mod 100)%Z in
  digits (cents / 100) ++ "."
  ++ (if (frac <? 10)%Z then "0" else "") ++ digits frac.

(** [format(x, ".2f")] *)
Definition format_2f (x : Q) : string :=
  if Qle_bool 0 x then format_2f_abs x else "-" ++ format_2f_abs (- x).

(** ** Requests and responses *)

(** A request to the route: one whose body is the JSON document [json],
    sent as JSON, or one with no JSON document (no body, a content type
    that is not JSON, a body that does not parse), for which [request.json]
    raises [e]: UnsupportedMediaType (415) or BadRequest (400). *)
Inductive request : Type :=
| mkRequest (json : value)
| no_json (e : exn).

(** [request.json] *)
Definition request_json (req : request) : M value :=
  match req with
  | mkRequest document => ret document
  | no_json e => raise e
  end.

(** [(jsonify(body), status)] *)
Record response : Type := mkResponse { status : Z; body : value }.

Definition jsonify (d : dict value) (code : Z) : response :=
  mkResponse code (VDict d).

(** [bool(v)] *)
Definition truthy (v : value) : bool :=
  match v with
  | VNone => false
  | VBool b => b
  | VNum q => negb (Qeq_bool q 0)
  | VStr s => negb (String.eqb s "")
  | VList l => match l with [] => false | _ => true end
  | VDict d => match d with [] => false | _ => true end
  end.

(** [type(v).__name__] *)
Definition type_name (v : value) : string :=
  match v with
  | VNone => "NoneType"
  | VBool _ => "bool"
  | VNum _ => "float"
  | VStr _ => "str"
  | VList _ => "list"
  | VDict _ => "dict"
  end.

Definition no_attribute (v : value) (attr : string) : exn :=
  AttributeError ("'" ++ type_name v ++ "' object has no attribute '"
                  ++ attr ++ "'").

(** [data.get(key, default)]; only a dictionary has the method. *)
Definition value_get (data : value) (key : string) (default : value)
  : M value :=
  match data with
  | VDict d => ret (match dict_get d key with Some v => v | None => default end)
  | _ => raise (no_attribute data "get")
  end.

(** [v.strip()]; only a string has the method. *)
Definition value_strip (v : value) : M string :=
  match v with
  | VStr s => ret (Str.strip s)
  | _ => raise (no_attribute v "strip")
  end.

(** The number a value stands for in arithmetic; [bool] is a subclass of
    [int]. *)
Definition as_number (v : value) : option Q :=
  match v with
  | VNum q => Some q
  | VBool b => Some (if b then 1 else 0)
  | _ => None
  end.

(** [f"{v:.2f}"] *)
Definition value_format_2f (v : value) : M string :=
  match as_number v with
  | Some q => ret (format_2f q)
  | None =>
      match v with
      | VStr _ =>
          raise (ValueError "Unknown format code 'f' for object of type 'str'")
      | _ =>
          raise (TypeError ("unsupported format string passed to "
                            ++ type_name v ++ ".__format__"))
      end
  end.

(** [a > b] where [b] is a number. *)
Definition value_gt (a b : value) : M bool :=
  match as_number a, as_number b with
  | Some x, Some y => ret (negb (Qle_bool x y))
  | _, _ =>
      raise (TypeError ("'>' not supported between instances of '"
                        ++ type_name a ++ "' and '" ++ type_name b ++ "'"))
  end.

Definition WINDOW_SIZE : Z := 60.
Definition PREDICTION_DAYS : Z := 1.

(** ** predict_stock *)

Section Runtime.

(** [repr] of numbers and containers, and [traceback.format_exc()] for the
    exception being handled: left to the interpreter. *)
Variable repr : value -> string.
Variable format_exc : exn -> string.

(** [str(v)] *)
Definition str_of (v : value) : string :=
  match v with
  | VStr s => s
  | VNone => "None"
  | VBool true => "True"
  | VBool false => "False"
  | _ => repr v
  end.

(** The body of the [try] statement, once [user_input] is known to be
    non-empty. *)
Definition predict_body (w : world) (user_input : string) : M response :=
  symbol <- get_stock_symbol w user_input ;;
  info <- Ticker_info w symbol ;;
  pipeline_result <- call_pipeline w symbol WINDOW_SIZE PREDICTION_DAYS ;;
  actual <- dict_item pipeline_result "actual_last_close" ;;
  let current_price :=
    match dict_get info "currentPrice" with Some v => v | None => actual end in
  let company_name :=
    match dict_get info "longName" with Some v => v | None => VStr symbol end in
  price_text <- value_format_2f current_price ;;
  let summary := str_of company_name ++ " (" ++ symbol
                 ++ ") is currently trading at $" ++ price_text ++ ". " in
  predicted <- dict_item pipeline_result "predicted_next_day_close" ;;
  rising <- value_gt predicted current_price ;;
  predicted' <- dict_item pipeline_result "predicted_next_day_close" ;;
  predicted_text <- value_format_2f predicted' ;;
  let summary :=
    summary ++ (if rising : bool
                then "The model predicts a potential increase to $"
                else "The model predicts a potential decrease to $")
    ++ predicted_text ++ " tomorrow." in
  let response :=
    dict_set
      (dict_set (dict_update [("symbol", VStr symbol)] pipeline_result)
                "summary" (VStr summary))
      "current_price" current_price in
  logged_predicted <- dict_item pipeline_result "predicted_next_day_close" ;;
  logged_actual <- dict_item pipeline_result "actual_last_close" ;;
  logging_info ("Prediction complete for " ++ symbol ++ ": Predicted $"
                ++ str_of logged_predicted ++ ", Actual $"
                ++ str_of logged_actual) ;;;
  ret (jsonify response 200).

Definition predict_stock (w : world) (req : request) : M response :=
  document <- request_json req ;;
  let data := if truthy document then document else VDict [] in
  stock <- value_get data "stock" (VStr "") ;;
  user_input <- value_strip stock ;;
  if negb (truthy (VStr user_input))
  then ret (jsonify [("error", VStr "Stock input required")] 400)
  else
    try_except (predict_body w user_input)
      (fun e =>
         logging_error ("Error in /predict route: " ++ exn_str e
                        ++ String (ascii_of_N 10) (format_exc e)) ;;;
         ret (jsonify [("error", VStr (exn_str e))] 500)).

End Runtime.

(** ** Worlds used in the examples *)

(** Every call of a collaborator raises: the network is down. *)
Definition connection_error : exn :=
  mkExn "ConnectionError" "Max retries exceeded".

Definition world_down : world :=
  mkWorld (fun _ _ => Raise connection_error)
          (fun _ => Raise connection_error)
          (fun _ _ _ => Raise connection_error).

(** The service knows exactly the symbols of [known]; one day of history is
    one row of seven columns. *)
Definition world_knowing (known : list string) : world :=
  mkWorld
    (fun symbol _ =>
       if existsb (String.eqb symbol) known
       then Return (mkFrame 1 7) else Return (mkFrame 0 7))
    (fun _ => Return [])
    (fun _ _ _ => Return []).

(** ** Vocabulary of the specification *)

(** Step 1 of the resolver: trim, then uppercase. *)
Definition normalize (s : string) : string := Str.upper (Str.strip s).

(** The one-day history query for [candidate] succeeds with at least one
    data point. *)
Definition recognized (w : world) (candidate : string) : Prop :=
  exists df, yf_history w candidate "1d" = Return df /\ empty df = false.

(** The query returns no data, or raises. *)
Definition unrecognized (w : world) (candidate : string) : Prop :=
  (exists df, yf_history w candidate "1d" = Return df /\ empty df = true)
  \/ (exists e, yf_history w candidate "1d" = Raise e).

Definition is_outbound (ev : event) : bool :=
  match ev with
  | Log _ _ => false
  | History _ _ | TickerInfo _ | Pipeline _ _ _ => true
  end.

(** The calls of the collaborators in a trace, in order. *)
Definition outbound_calls (tr : list event) : list event :=
  filter is_outbound tr.

Definition is_warning (ev : event) : bool :=
  match ev with
  | Log WARNING _ => true
  | _ => false
  end.

Definition without_warnings (tr : list event) : list event :=
  filter (fun ev => negb (is_warning ev)) tr.

(** The values of [common_mappings]. *)
Definition mapped_symbols : list string :=
  ["AAPL"; "GOOGL"; "MSFT"; "AMZN"; "TSLA"; "META"; "NFLX"; "NVDA"; "ADBE";
   "CRM"].

(** What the alias step and the final [raise] do with a candidate. *)
Definition fallback_result (candidate : string) : py_result string :=
  match dict_get common_mappings candidate with
  | Some mapped => Return mapped
  | None => Raise (ValueError (not_found_message candidate))
  end.

(** The requests the guard of [predict_stock] turns away: a falsy document
    ([null], [{}], [[]], [0], [""], [false]), an object without the field,
    an object whose field is a string that trims to nothing. *)
Inductive stock_input_absent : request -> Prop :=
| body_missing : forall j,
    truthy j = false -> stock_input_absent (mkRequest j)
| field_missing : forall d,
    dict_get d "stock" = None -> stock_input_absent (mkRequest (VDict d))
| field_blank : forall d s,
    dict_get d "stock" = Some (VStr s) -> Str.strip s = "" ->
    stock_input_absent (mkRequest (VDict d)).

(** ** The rest of the route table *)

(** [health_check] *)
Definition health_check : M response :=
  ret (jsonify [("status", VStr "healthy");
                ("message", VStr "Backend is running")] 200).

(** The [except] clause of [predict_stock]. *)
Definition route_error_handler (format_exc : exn -> string) (e : exn)
  : M response :=
  logging_error ("Error in /predict route: " ++ exn_str e
                 ++ String (ascii_of_N 10) (format_exc e)) ;;;
  ret (jsonify [("error", VStr (exn_str e))] 500).

(** The request is an object whose 'stock' field is the string [s], not
    blank. *)
Definition stock_input (req : request) (s : string) : Prop :=
  exists d,
    req = mkRequest (VDict d)
    /\ dict_get d "stock" = Some (VStr s)
    /\ String.eqb (Str.strip s) "" = false.

(** No key occurs twice, as in every Python dictionary. *)
Fixpoint unique_keys {V} (d : dict V) : bool :=
  match d with
  | [] => true
  | (k, _) :: d' =>
      negb (existsb (String.eqb k) (map fst d')) && unique_keys d'
  end.

Definition is_error_log (ev : event) : bool :=
  match ev with
  | Log ERROR _ => true
  | _ => false
  end.

(** The service knows the symbols of [known]; company data and the
    pipeline answer with the given dictionaries. *)
Definition world_serving (known : list string) (info result : dict value)
  : world :=
  mkWorld
    (fun symbol _ =>
       if existsb (String.eqb symbol) known
       then Return (mkFrame 1 7) else Return (mkFrame 0 7))
    (fun _ => Return info)
    (fun _ _ _ => Return result).

Definition is_dict (v : value) : bool :=
  match v with VDict _ => true | _ => false end.

Definition is_str (v : value) : bool :=
  match v with VStr _ => true | _ => false end.

(** [info.get('currentPrice', actual)] *)
Definition price_of (info : dict value) (actual : value) : value :=
  match dict_get info "currentPrice" with Some v => v | None => actual end.

(** [info.get('longName', symbol)] *)
Definition name_of (info : dict value) (symbol : string) : value :=
  match dict_get info "longName" with Some v => v | None => VStr symbol end.

(** How one run of the [try] body of [predict_stock] ends: at the resolver,
    at the company data, at the pipeline, on the data they returned, or
    with the response. *)
Inductive body_run (w : world) (input : string) : M response -> Prop :=
| run_unresolved : forall e tr,
    get_stock_symbol w input = (Raise e, tr) ->
    body_run w input (Raise e, tr)
| run_info_failed : forall symbol tr e,
    get_stock_symbol w input = (Return symbol, tr) ->
    yf_info w symbol = Raise e ->
    body_run w input (Raise e, (tr ++ [TickerInfo symbol])%list)
| run_pipeline_failed : forall symbol tr info e,
    get_stock_symbol w input = (Return symbol, tr) ->
    yf_info w symbol = Return info ->
    run_full_pipeline w symbol WINDOW_SIZE PREDICTION_DAYS = Raise e ->
    body_run w input
      (Raise e,
       (tr ++ [TickerInfo symbol;
               Pipeline symbol WINDOW_SIZE PREDICTION_DAYS])%list)
| run_data_error : forall symbol tr info result e,
    get_stock_symbol w input = (Return symbol, tr) ->
    yf_info w symbol = Return info ->
    run_full_pipeline w symbol WINDOW_SIZE PREDICTION_DAYS = Return result ->
    body_run w input
      (Raise e,
       (tr ++ [TickerInfo symbol;
               Pipeline symbol WINDOW_SIZE PREDICTION_DAYS])%list)
| run_completed : forall symbol tr info result actual summary msg,
    get_stock_symbol w input = (Return symbol, tr) ->
    yf_info w symbol = Return info ->
    run_full_pipeline w symbol WINDOW_SIZE PREDICTION_DAYS = Return result ->
    dict_get result "actual_last_close" = Some actual ->
    body_run w input
      (Return
         (jsonify
            (dict_set
               (dict_set (dict_update [("symbol", VStr symbol)] result)
                         "summary" (VStr summary))
               "current_price" (price_of info actual))
            200),
       (tr ++ [TickerInfo symbol;
               Pipeline symbol WINDOW_SIZE PREDICTION_DAYS;
               Log INFO msg])%list).

(** ** Facts about text *)

Module StrFacts.
Import Str.

Lemma isspace_upper_char (c : ascii) : isspace (upper_char c) = isspace c.
Proof. destruct c as [[] [] [] [] [] [] [] []]; reflexivity. Qed.

Lemma islower_upper_char (c : ascii) : islower (upper_char c) = false.
Proof. destruct c as [[] [] [] [] [] [] [] []]; reflexivity. Qed.

Lemma upper_no_lowercase (s : string) : no_lowercase (upper s) = true.
Proof.
  induction s as [|c s IH]; simpl; [reflexivity|].
  now rewrite islower_upper_char, IH.
Qed.

Lemma last_char_upper (c : ascii) (s : string) :
  last_char (upper_char c) (upper s) = upper_char (last_char c s).
Proof. revert c; induction s as [|c' s IH]; intro c; simpl; auto. Qed.

Lemma upper_keeps_edges (s : string) :
  no_surrounding_whitespace (upper s) = no_surrounding_whitespace s.
Proof.
  destruct s as [|c s]; simpl; [reflexivity|].
  now rewrite last_char_upper, !isspace_upper_char.
Qed.

Lemma lstrip_head (s : string) :
  match lstrip s with
  | EmptyString => True
  | String c _ => isspace c = false
  end.
Proof.
  induction s as [|c s IH]; simpl; [exact I|].
  destruct (isspace c) eqn:E; [exact IH | exact E].
Qed.

Lemma rstrip_last (s : string) :
  match rstrip s with
  | EmptyString => True
  | String c r => isspace (last_char c r) = false
  end.
Proof.
  induction s as [|c s IH]; simpl; [exact I|].
  destruct (rstrip s) as [|c' r].
  - destruct (isspace c) eqn:E; simpl; [exact I | exact E].
  - exact IH.
Qed.

Lemma rstrip_head (c : ascii) (s : string) :
  isspace c = false -> exists r, rstrip (String c s) = String c r.
Proof.
  intro E; simpl. destruct (rstrip s) as [|c' r].
  - rewrite E. now exists EmptyString.
  - now exists (String c' r).
Qed.

Lemma strip_edges (s : string) : no_surrounding_whitespace (strip s) = true.
Proof.
  unfold strip. pose proof (lstrip_head s) as Hl.
  destruct (lstrip s) as [|c t]; [reflexivity|].
  destruct (rstrip_head c t Hl) as [r Hr].
  pose proof (rstrip_last (String c t)) as Hlast.
  rewrite Hr in *. simpl. now rewrite Hl, Hlast.
Qed.

(** A string without lowercase letters is a fixed point of [upper]. *)
Lemma upper_fixed (s : string) : no_lowercase s = true -> upper s = s.
Proof.
  induction s as [|c s IH]; simpl; [reflexivity|].
  intros H; apply andb_prop in H as [Hc Hs].
  unfold upper_char. destruct (islower c); [discriminate|].
  now rewrite (IH Hs).
Qed.

Lemma rstrip_fixed (c : ascii) (s : string) :
  isspace (last_char c s) = false -> rstrip (String c s) = String c s.
Proof.
  revert c; induction s as [|c' s IH]; intros c H.
  - simpl in *. now rewrite H.
  - change (rstrip (String c (String c' s)))
      with (match rstrip (String c' s) with
            | EmptyString =>
                if isspace c then EmptyString else String c EmptyString
            | r => String c r
            end).
    now rewrite (IH c' H).
Qed.

(** A string with no whitespace at either end is a fixed point of
    [strip]. *)
Lemma strip_fixed (s : string) :
  no_surrounding_whitespace s = true -> strip s = s.
Proof.
  destruct s as [|c s]; [reflexivity|].
  unfold no_surrounding_whitespace, strip.
  intros H; apply andb_prop in H as [Hc Hl].
  apply negb_true_iff in Hc, Hl.
  cbn [lstrip]. rewrite Hc. now apply rstrip_fixed.
Qed.

Lemma append_assoc (a b c : string) : (a ++ b) ++ c = a ++ b ++ c.
Proof. induction a as [|x a IH]; simpl; [reflexivity | now rewrite IH]. Qed.

Lemma prefix_append (t b : string) : String.prefix t (t ++ b) = true.
Proof.
  induction t as [|c t IH]; simpl.
  - now destruct b.
  - destruct (ascii_dec c c) as [_|N]; [exact IH | now elim N].
Qed.

Lemma contains_equation (s t : string) :
  contains s t =
  if String.prefix t s then true
  else match s with
       | EmptyString => false
       | String _ s' => contains s' t
       end.
Proof. destruct s; reflexivity. Qed.

Lemma contains_prefixed (t b : string) : contains (t ++ b) t = true.
Proof. now rewrite contains_equation, prefix_append. Qed.

(** [t in a + t + b] *)
Lemma contains_infix (a t b : string) : contains (a ++ t ++ b) t = true.
Proof.
  induction a as [|c a IH].
  - simpl. apply contains_prefixed.
  - change (contains (String c (a ++ t ++ b)) t = true).
    rewrite contains_equation, IH.
    destruct (String.prefix t (String c (a ++ t ++ b))); reflexivity.
Qed.

End StrFacts.

(** ** The three paths through get_stock_symbol *)

(** The log record of the alias step or of the failure. *)
Definition fallback_log (candidate : string) : event :=
  match dict_get common_mappings candidate with
  | Some mapped =>
      Log INFO ("Symbol resolved from mapping: " ++ candidate
                ++ " -> " ++ mapped)
  | None =>
      Log ERROR ("Could not find a ticker symbol for '" ++ candidate ++ "'.")
  end.

Definition warning_log (candidate : string) (e : exn) : event :=
  Log WARNING ("Direct symbol lookup failed for " ++ candidate
               ++ ": " ++ exn_str e).

Ltac run_resolver :=
  unfold get_stock_symbol, direct_lookup, Ticker_history, call, try_except,
    bind, logging_info, logging_warning, logging_error, emit, ret, raise,
    fallback_result, fallback_log, warning_log, normalize in *.

Module Resolver.

Lemma direct_path (w : world) (s : string) (df : DataFrame) :
  yf_history w (normalize s) "1d" = Return df ->
  empty df = false ->
  get_stock_symbol w s =
  (Return (normalize s),
   [History (normalize s) "1d";
    Log INFO ("Symbol resolved directly: " ++ normalize s)]).
Proof.
  intros Hq Hne. run_resolver. rewrite Hq, Hne. reflexivity.
Qed.

Lemma empty_path (w : world) (s : string) (df : DataFrame) :
  yf_history w (normalize s) "1d" = Return df ->
  empty df = true ->
  get_stock_symbol w s =
  (fallback_result (normalize s),
   [History (normalize s) "1d"; fallback_log (normalize s)]).
Proof.
  intros Hq He. run_resolver. rewrite Hq, He.
  destruct (dict_get common_mappings (Str.upper (Str.strip s)));
    reflexivity.
Qed.

Lemma raise_path (w : world) (s : string) (e : exn) :
  yf_history w (normalize s) "1d" = Raise e ->
  get_stock_symbol w s =
  (fallback_result (normalize s),
   [History (normalize s) "1d"; warning_log (normalize s) e;
    fallback_log (normalize s)]).
Proof.
  intros Hq. run_resolver. rewrite Hq.
  destruct (dict_get common_mappings (Str.upper (Str.strip s)));
    reflexivity.
Qed.

(** Every run begins with the one-day history query for the candidate, and
    nothing but log records follows it. *)
Lemma trace_shape (w : world) (s : string) :
  exists logs,
    trace_of (get_stock_symbol w s) = History (normalize s) "1d" :: logs
    /\ outbound_calls logs = [].
Proof.
  destruct (yf_history w (normalize s) "1d") as [df|e] eqn:Hq.
  - destruct (empty df) eqn:He.
    + rewrite (empty_path w s df Hq He). eexists; split; [reflexivity|].
      unfold fallback_log; now destruct (dict_get _ _).
    + rewrite (direct_path w s df Hq He). eexists; split; reflexivity.
  - rewrite (raise_path w s e Hq). eexists; split; [reflexivity|].
    unfold fallback_log; now destruct (dict_get _ _).
Qed.

(** The result of the fallback when the candidate is not recognized. *)
Lemma unrecognized_result (w : world) (s : string) :
  unrecognized w (normalize s) ->
  result_of (get_stock_symbol w s) = fallback_result (normalize s).
Proof.
  intros [(df & Hq & He) | (e & Hq)].
  - now rewrite (empty_path w s df Hq He).
  - now rewrite (raise_path w s e Hq).
Qed.

Lemma recognized_or_not (w : world) (c : string) :
  recognized w c \/ unrecognized w c.
Proof.
  unfold recognized, unrecognized.
  destruct (yf_history w c "1d") as [df|e] eqn:Hq; [|right; right; eauto].
  destruct (empty df) eqn:He; [right; left | left]; eauto.
Qed.

Lemma mapped_in_table (k v : string) :
  dict_get common_mappings k = Some v -> In v mapped_symbols.
Proof.
  unfold common_mappings, mapped_symbols; cbn [dict_get].
  repeat (destruct (String.eqb k _);
          [intros [= <-]; cbn; tauto|]).
  discriminate.
Qed.

Lemma mapped_symbols_shape (v : string) :
  In v mapped_symbols ->
  Str.no_lowercase v = true /\ Str.no_surrounding_whitespace v = true
  /\ String.eqb v "" = false.
Proof.
  unfold mapped_symbols; cbn [In].
  intros H; repeat (destruct H as [<-|H]; [repeat split|]); contradiction.
Qed.

End Resolver.

(** ** Properties of get_stock_symbol *)

(** C1: when the one-day history query for the trimmed, uppercased input
    succeeds with at least one data point, get_stock_symbol succeeds and
    returns exactly that normalized candidate. *)
Theorem direct_match_returns_candidate (w : world) (s : string) :
  recognized w (normalize s) ->
  result_of (get_stock_symbol w s) = Return (Str.upper (Str.strip s)).
Proof.
  intros (df & Hq & Hne).
  now rewrite (Resolver.direct_path w s df Hq Hne).
Qed.

Lemma direct_match_returns_candidate_witness :
  recognized (world_knowing ["MSFT"]) (normalize " msft ")
  /\ result_of (get_stock_symbol (world_knowing ["MSFT"]) " msft ")
     = Return "MSFT".
Proof.
  assert (R : recognized (world_knowing ["MSFT"]) (normalize " msft "))
    by (exists (mkFrame 1 7); split; reflexivity).
  split; [exact R|].
  exact (direct_match_returns_candidate (world_knowing ["MSFT"]) " msft " R).
Defined.

(** C2: when the normalized input is a key of the alias table and the
    service does not recognize it directly (empty history, or an exception
    from the query), get_stock_symbol succeeds and returns the value the
    table maps the key to. *)
Theorem alias_fallback_returns_mapped (w : world) (s mapped : string) :
  dict_get common_mappings (normalize s) = Some mapped ->
  unrecognized w (normalize s) ->
  result_of (get_stock_symbol w s) = Return mapped.
Proof.
  intros Hk Hun.
  rewrite (Resolver.unrecognized_result w s Hun).
  unfold fallback_result. now rewrite Hk.
Qed.

Lemma alias_fallback_returns_mapped_witness :
  result_of (get_stock_symbol world_down "apple") = Return "AAPL"
  /\ result_of (get_stock_symbol (world_knowing ["MSFT"]) " Salesforce ")
     = Return "CRM".
Proof.
  split.
  - apply (alias_fallback_returns_mapped world_down "apple" "AAPL").
    + reflexivity.
    + right. exists connection_error. reflexivity.
  - apply (alias_fallback_returns_mapped
             (world_knowing ["MSFT"]) " Salesforce " "CRM").
    + reflexivity.
    + left. exists (mkFrame 0 7). split; reflexivity.
Defined.

(** C3: when the normalized input is both recognized directly and a key of
    the alias table, get_stock_symbol returns the normalized input: the run
    is the direct one (the query, then the record of a direct resolution),
    and a mapped value that differs from the candidate is not returned. *)
Theorem direct_match_has_priority (w : world) (s mapped : string) :
  recognized w (normalize s) ->
  dict_get common_mappings (normalize s) = Some mapped ->
  get_stock_symbol w s =
    (Return (normalize s),
     [History (normalize s) "1d";
      Log INFO ("Symbol resolved directly: " ++ normalize s)])
  /\ (String.eqb mapped (normalize s) = false ->
      result_of (get_stock_symbol w s) <> Return mapped).
Proof.
  intros (df & Hq & Hne) _.
  rewrite (Resolver.direct_path w s df Hq Hne). split; [reflexivity|].
  intros Hdiff [= Heq]. rewrite <- Heq, String.eqb_refl in Hdiff.
  discriminate.
Qed.

Lemma direct_match_has_priority_witness :
  dict_get common_mappings (normalize "apple") = Some "AAPL"
  /\ result_of (get_stock_symbol (world_knowing ["APPLE"]) "apple")
     = Return "APPLE".
Proof.
  split; [reflexivity|].
  assert (R : recognized (world_knowing ["APPLE"]) (normalize "apple"))
    by (exists (mkFrame 1 7); split; reflexivity).
  destruct (direct_match_has_priority
              (world_knowing ["APPLE"]) "apple" "AAPL" R eq_refl) as [E _].
  now rewrite E.
Defined.

(** C4: an exception raised by the one-day history query does not leave
    get_stock_symbol: the outcome is the one of the alias step (the mapped
    value, or the resolver's own ValueError), whatever the exception was,
    and it is the outcome of a run in which the query returns an empty
    frame; the two runs differ by the warning record alone. *)
Theorem lookup_exception_is_absorbed
  (w w' : world) (s : string) (e : exn) (df : DataFrame) :
  yf_history w (normalize s) "1d" = Raise e ->
  yf_history w' (normalize s) "1d" = Return df ->
  empty df = true ->
  result_of (get_stock_symbol w s) = result_of (get_stock_symbol w' s)
  /\ without_warnings (trace_of (get_stock_symbol w s))
     = trace_of (get_stock_symbol w' s)
  /\ result_of (get_stock_symbol w s)
     = match dict_get common_mappings (normalize s) with
       | Some mapped => Return mapped
       | None => Raise (ValueError (not_found_message (normalize s)))
       end.
Proof.
  intros Hraise Hq He.
  rewrite (Resolver.raise_path w s e Hraise), (Resolver.empty_path w' s df Hq He).
  repeat split.
  unfold fallback_log, trace_of; cbn [snd].
  destruct (dict_get common_mappings (normalize s)); reflexivity.
Qed.

Lemma lookup_exception_is_absorbed_witness :
  result_of (get_stock_symbol world_down "tesla") = Return "TSLA"
  /\ result_of (get_stock_symbol world_down "tesla")
     = result_of (get_stock_symbol (world_knowing []) "tesla").
Proof.
  destruct (lookup_exception_is_absorbed
              world_down (world_knowing []) "tesla"
              connection_error (mkFrame 0 7) eq_refl eq_refl eq_refl)
    as (Hsame & _ & Hres).
  split; [exact Hres | exact Hsame].
Defined.

(** C5: when the normalized input is neither recognized directly nor a key
    of the alias table, get_stock_symbol fails with one ValueError (a typed
    error, not a generic crash) whose message mentions the input text, in
    the normalized form in which the resolver carries it ("Nonexistent Corp"
    is quoted as 'NONEXISTENT CORP'), and suggests the example symbols AAPL
    and GOOGL. *)
Theorem unresolved_input_raises_value_error (w : world) (s : string) :
  unrecognized w (normalize s) ->
  dict_get common_mappings (normalize s) = None ->
  exists err,
    result_of (get_stock_symbol w s) = Raise err
    /\ exn_class err = "ValueError"
    /\ exn_str err =
       "Could not find a ticker symbol for '" ++ normalize s
       ++ "'. Please try a valid stock symbol like AAPL, GOOGL, etc."
    /\ Str.contains (exn_str err) (normalize s) = true
    /\ Str.contains (exn_str err) "AAPL" = true
    /\ Str.contains (exn_str err) "GOOGL" = true.
Proof.
  intros Hun Hk.
  exists (ValueError (not_found_message (normalize s))).
  rewrite (Resolver.unrecognized_result w s Hun).
  unfold fallback_result; rewrite Hk.
  repeat split; cbn [exn_str ValueError]; unfold not_found_message.
  - apply StrFacts.contains_infix.
  - replace ("Could not find a ticker symbol for '" ++ normalize s
             ++ "'. Please try a valid stock symbol like AAPL, GOOGL, etc.")
      with (("Could not find a ticker symbol for '" ++ normalize s
             ++ "'. Please try a valid stock symbol like ")
            ++ "AAPL" ++ ", GOOGL, etc.")
      by (now rewrite !StrFacts.append_assoc).
    apply StrFacts.contains_infix.
  - replace ("Could not find a ticker symbol for '" ++ normalize s
             ++ "'. Please try a valid stock symbol like AAPL, GOOGL, etc.")
      with (("Could not find a ticker symbol for '" ++ normalize s
             ++ "'. Please try a valid stock symbol like AAPL, ")
            ++ "GOOGL" ++ ", etc.")
      by (now rewrite !StrFacts.append_assoc).
    apply StrFacts.contains_infix.
Qed.

Lemma unresolved_input_raises_value_error_witness :
  exists err,
    result_of (get_stock_symbol (world_knowing ["MSFT"]) "Nonexistent Corp")
    = Raise err
    /\ Str.contains (exn_str err) "NONEXISTENT CORP" = true.
Proof.
  destruct (unresolved_input_raises_value_error
              (world_knowing ["MSFT"]) "Nonexistent Corp")
    as (err & Hres & _ & _ & Hin & _).
  - left. exists (mkFrame 0 7). split; reflexivity.
  - reflexivity.
  - exists err. split; [exact Hres | exact Hin].
Defined.

(** C6: resolution depends on the input through its trimmed, uppercased
    form alone: two inputs with the same normalized form give the same
    outcome (returned symbol or failure) and the same trace under the same
    service; " aapl  ", "AAPL" and "Aapl" are three such inputs. *)
Theorem resolution_ignores_case_and_padding :
  (forall (w : world) (s t : string),
      normalize s = normalize t ->
      get_stock_symbol w s = get_stock_symbol w t)
  /\ (forall w : world,
        get_stock_symbol w " aapl  " = get_stock_symbol w "AAPL"
        /\ get_stock_symbol w "Aapl" = get_stock_symbol w "AAPL").
Proof.
  assert (G : forall w s t, normalize s = normalize t ->
                            get_stock_symbol w s = get_stock_symbol w t).
  { intros w s t H. unfold get_stock_symbol.
    change (Str.upper (Str.strip s)) with (normalize s).
    change (Str.upper (Str.strip t)) with (normalize t).
    now rewrite H. }
  split; [exact G|].
  intro w; split; apply G; reflexivity.
Qed.

Lemma resolution_ignores_case_and_padding_witness :
  normalize " aapl  " = normalize "Aapl"
  /\ get_stock_symbol (world_knowing ["AAPL"]) " aapl  "
     = get_stock_symbol (world_knowing ["AAPL"]) "Aapl".
Proof.
  split; [reflexivity|].
  apply (proj1 resolution_ignores_case_and_padding
           (world_knowing ["AAPL"]) " aapl  " "Aapl").
  reflexivity.
Defined.

(** C7, as the code has it: get_stock_symbol either returns the normalized
    input, which the service has just accepted, or returns a non-empty value
    of the alias table for a candidate the service did not accept (the value
    itself is not submitted to the service), or fails with the ValueError of
    the resolver. *)
Theorem resolver_outcomes (w : world) (s : string) :
  (result_of (get_stock_symbol w s) = Return (normalize s)
   /\ recognized w (normalize s))
  \/ (exists mapped,
        result_of (get_stock_symbol w s) = Return mapped
        /\ dict_get common_mappings (normalize s) = Some mapped
        /\ String.eqb mapped "" = false
        /\ unrecognized w (normalize s))
  \/ (result_of (get_stock_symbol w s)
      = Raise (ValueError (not_found_message (normalize s)))
      /\ unrecognized w (normalize s)
      /\ dict_get common_mappings (normalize s) = None).
Proof.
  destruct (Resolver.recognized_or_not w (normalize s)) as [Hrec | Hun].
  - left. split; [|exact Hrec].
    destruct Hrec as (df & Hq & Hne).
    now rewrite (Resolver.direct_path w s df Hq Hne).
  - right. rewrite (Resolver.unrecognized_result w s Hun).
    unfold fallback_result.
    destruct (dict_get common_mappings (normalize s)) as [mapped|] eqn:Hk.
    + left. exists mapped. repeat split; trivial.
      apply Resolver.mapped_symbols_shape.
      now apply (Resolver.mapped_in_table (normalize s)).
    + right. repeat split; trivial.
Qed.

(** C7, as stated, fails: with the service down, "apple" resolves to "AAPL"
    through the alias table although the service accepts neither "APPLE"
    nor "AAPL". *)
Lemma alias_symbol_is_not_validated :
  result_of (get_stock_symbol world_down "apple") = Return "AAPL"
  /\ yf_history world_down "AAPL" "1d" = Raise connection_error
  /\ outbound_calls (trace_of (get_stock_symbol world_down "apple"))
     = [History "APPLE" "1d"].
Proof. repeat split. Qed.

(** C8: one run of get_stock_symbol makes at most one outbound call, the
    one-day history query for the candidate; what follows it in the trace,
    on the alias path and on the failure path, is log records only. *)
Theorem at_most_one_outbound_call (w : world) (s : string) :
  (List.length (outbound_calls (trace_of (get_stock_symbol w s))) <= 1)%nat
  /\ outbound_calls (trace_of (get_stock_symbol w s))
     = [History (normalize s) "1d"]
  /\ exists logs,
       trace_of (get_stock_symbol w s) = History (normalize s) "1d" :: logs
       /\ Forall (fun ev => is_outbound ev = false) logs.
Proof.
  destruct (Resolver.trace_shape w s) as (logs & Htr & Hlogs).
  assert (Hcalls : outbound_calls (trace_of (get_stock_symbol w s))
                   = [History (normalize s) "1d"]).
  { rewrite Htr. unfold outbound_calls in *. cbn [filter is_outbound].
    now rewrite Hlogs. }
  split; [rewrite Hcalls; cbn; lia|].
  split; [exact Hcalls|].
  exists logs. split; [exact Htr|].
  clear Htr Hcalls. induction logs as [|ev logs IH]; constructor.
  - unfold outbound_calls in Hlogs; cbn [filter] in Hlogs.
    destruct (is_outbound ev); [discriminate | reflexivity].
  - apply IH. unfold outbound_calls in *; cbn [filter] in Hlogs.
    destruct (is_outbound ev); [discriminate | exact Hlogs].
Qed.

(** C9: a returned symbol is uppercase (it has no lowercase letter, and
    [upper] leaves it as it is) with no surrounding whitespace (neither end
    is a whitespace character, and [strip] leaves it as it is), and it is
    the normalized input or one of the ten values of the inline table. *)
Theorem returned_symbol_shape (w : world) (s r : string) :
  result_of (get_stock_symbol w s) = Return r ->
  (Str.no_lowercase r = true /\ Str.upper r = r)
  /\ (Str.no_surrounding_whitespace r = true /\ Str.strip r = r)
  /\ (r = Str.upper (Str.strip s)
      \/ In r ["AAPL"; "GOOGL"; "MSFT"; "AMZN"; "TSLA"; "META"; "NFLX";
               "NVDA"; "ADBE"; "CRM"]).
Proof.
  intros Hres.
  assert (Hshape : Str.no_lowercase r = true
                   /\ Str.no_surrounding_whitespace r = true
                   /\ (r = normalize s \/ In r mapped_symbols)).
  { destruct (Resolver.recognized_or_not w (normalize s))
      as [(df & Hq & Hne) | Hun].
    - rewrite (Resolver.direct_path w s df Hq Hne) in Hres.
      injection Hres as <-. unfold normalize.
      split; [apply StrFacts.upper_no_lowercase|].
      split; [|now left].
      rewrite StrFacts.upper_keeps_edges. apply StrFacts.strip_edges.
    - rewrite (Resolver.unrecognized_result w s Hun) in Hres.
      unfold fallback_result in Hres.
      destruct (dict_get common_mappings (normalize s)) as [mapped|] eqn:Hk;
        [|discriminate].
      injection Hres as <-.
      pose proof (Resolver.mapped_in_table _ _ Hk) as Hin.
      destruct (Resolver.mapped_symbols_shape _ Hin) as (Hup & Hed & _).
      repeat split; trivial. right; exact Hin. }
  destruct Hshape as (Hup & Hed & Hwhich).
  split; [split; [exact Hup | now apply StrFacts.upper_fixed]|].
  split; [split; [exact Hed | now apply StrFacts.strip_fixed]|].
  exact Hwhich.
Qed.

Lemma returned_symbol_shape_witness :
  result_of (get_stock_symbol world_down " Nvidia ") = Return "NVDA"
  /\ Str.no_lowercase "NVDA" = true
  /\ result_of (get_stock_symbol (world_knowing ["BRK-B"]) " brk-b") =
     Return "BRK-B"
  /\ Str.no_surrounding_whitespace "BRK-B" = true.
Proof.
  split; [reflexivity|].
  split; [exact (proj1 (proj1 (returned_symbol_shape
                                 world_down " Nvidia " "NVDA" eq_refl)))|].
  split; [reflexivity|].
  exact (proj1 (proj1 (proj2 (returned_symbol_shape
                                (world_knowing ["BRK-B"]) " brk-b" "BRK-B"
                                eq_refl)))).
Defined.

(** ** The guard of predict_stock *)

Module Guard.

Lemma bind_unit {A B} (a : A) (k : A -> M B) : bind (ret a) k = k a.
Proof. unfold bind, ret. now destruct (k a). Qed.

(** The field read by the guard, for a request it turns away. *)
Lemma absent_input (req : request) :
  stock_input_absent req ->
  exists j,
    req = mkRequest j
    /\ bind (value_get (if truthy j then j else VDict []) "stock" (VStr ""))
            value_strip
       = (Return "", []).
Proof.
  intros H.
  destruct H as [j Hj | d Hd | d s Hd Hs];
    eexists; (split; [reflexivity|]).
  - rewrite Hj. reflexivity.
  - destruct d as [|kv d]; [reflexivity|].
    cbn [truthy]. unfold value_get. rewrite Hd. reflexivity.
  - destruct d as [|kv d]; [discriminate|].
    cbn [truthy]. unfold value_get. rewrite Hd.
    unfold value_strip, bind, ret. now rewrite Hs.
Qed.

End Guard.

(** C10, at the failing input: for a request with no JSON document,
    [request.json] raises at the first line of predict_stock, outside the
    try and before the guard; the exception leaves the function, nothing is
    logged or called, and the answer is not the guard's
    400 {"error": "Stock input required"}. *)
Theorem missing_document_raises_before_guard
  (repr : value -> string) (format_exc : exn -> string)
  (w : world) (e : exn) :
  predict_stock repr format_exc w (no_json e) = (Raise e, [])
  /\ result_of (predict_stock repr format_exc w (no_json e))
     <> Return (mkResponse 400
                  (VDict [("error", VStr "Stock input required")])).
Proof. split; [reflexivity | discriminate]. Qed.

(** X17: a request whose JSON document is falsy (null, {}, [], 0, "",
    false), or is an object that has no 'stock' field, or an object whose
    'stock' string is empty once trimmed, is answered 400 with the body
    {"error": "Stock input required"}; the run leaves an empty trace, so
    neither the market-data service nor the pipeline is called, and the
    resolver, every run of which starts with a history query, is not run. *)
Theorem absent_stock_input_is_rejected
  (repr : value -> string) (format_exc : exn -> string)
  (w : world) (req : request) :
  stock_input_absent req ->
  predict_stock repr format_exc w req
  = (Return (mkResponse 400 (VDict [("error", VStr "Stock input required")])),
     [])
  /\ outbound_calls (trace_of (predict_stock repr format_exc w req)) = []
  /\ (forall s, exists logs,
         trace_of (get_stock_symbol w s) = History (normalize s) "1d" :: logs).
Proof.
  intros Habs.
  assert (E : predict_stock repr format_exc w req
              = (Return (mkResponse 400
                           (VDict [("error", VStr "Stock input required")])),
                 [])).
  { destruct (Guard.absent_input req Habs) as (j & -> & Hrun).
    unfold predict_stock. cbn [request_json]. rewrite Guard.bind_unit.
    destruct (value_get (if truthy j then j else VDict [])
                        "stock" (VStr "")) as [[stock|e] tr] eqn:Hget;
      cbn [bind] in Hrun |- *.
    - destruct (value_strip stock) as [[input|e] tr'] eqn:Hstrip;
        [|discriminate].
      injection Hrun as -> Htr.
      apply app_eq_nil in Htr as [-> ->]. reflexivity.
    - discriminate. }
  split; [exact E|]. split; [now rewrite E|].
  intro s. destruct (Resolver.trace_shape w s) as (logs & Htr & _).
  now exists logs.
Qed.

Lemma absent_stock_input_is_rejected_witness :
  stock_input_absent (mkRequest (VDict [("ticker", VStr "AAPL");
                                        ("stock", VStr "   ")]))
  /\ predict_stock (fun _ => "") (fun _ => "") (world_knowing ["AAPL"])
       (mkRequest (VDict [("ticker", VStr "AAPL"); ("stock", VStr "   ")]))
     = (Return (mkResponse 400
                  (VDict [("error", VStr "Stock input required")])), []).
Proof.
  assert (A : stock_input_absent
                (mkRequest (VDict [("ticker", VStr "AAPL");
                                   ("stock", VStr "   ")])))
    by (apply (field_blank _ "   "); reflexivity).
  split; [exact A|].
  exact (proj1 (absent_stock_input_is_rejected
                  (fun _ => "") (fun _ => "") (world_knowing ["AAPL"]) _ A)).
Defined.

(** ** More facts about text and dictionaries *)

Module TextMore.
Import Str.

Lemma strip_idempotent (s : string) : strip (strip s) = strip s.
Proof. apply StrFacts.strip_fixed, StrFacts.strip_edges. Qed.

Lemma normalize_strip (s : string) : normalize (strip s) = normalize s.
Proof. unfold normalize. now rewrite strip_idempotent. Qed.

Lemma normalize_fixed (s : string) : normalize (normalize s) = normalize s.
Proof.
  unfold normalize.
  rewrite (StrFacts.strip_fixed (upper (strip s))).
  - apply StrFacts.upper_fixed, StrFacts.upper_no_lowercase.
  - rewrite StrFacts.upper_keeps_edges. apply StrFacts.strip_edges.
Qed.

Lemma same_blankness (s t : string) :
  normalize s = normalize t ->
  String.eqb (strip s) "" = String.eqb (strip t) "".
Proof.
  unfold normalize. intros H.
  destruct (strip s) as [|c s'], (strip t) as [|c' t']; try reflexivity;
    discriminate.
Qed.

End TextMore.

Module DictFacts.
Section Dict.
Context {V : Type}.
Implicit Types (d : dict V) (k : string) (v : V).

Lemma get_set_same d k v : dict_get (dict_set d k v) k = Some v.
Proof.
  induction d as [|[k' v'] d IH]; simpl.
  - now rewrite String.eqb_refl.
  - destruct (String.eqb k k') eqn:E; simpl; rewrite E;
      [reflexivity | exact IH].
Qed.

Lemma get_set_other d k k' v :
  String.eqb k' k = false -> dict_get (dict_set d k v) k' = dict_get d k'.
Proof.
  intros Hne. induction d as [|[k0 v0] d IH]; simpl.
  - now rewrite Hne.
  - destruct (String.eqb k k0) eqn:E; simpl.
    + apply String.eqb_eq in E; subst k0. now rewrite Hne.
    + now rewrite IH.
Qed.

Lemma get_absent d k :
  existsb (String.eqb k) (map fst d) = false -> dict_get d k = None.
Proof.
  induction d as [|[k0 v0] d IH]; simpl; [reflexivity|].
  intros H; apply orb_false_elim in H as [H1 H2].
  rewrite H1. now apply IH.
Qed.

(** In [{**d1, **d2}] the entries of [d2] win. *)
Lemma get_update d1 d2 k :
  unique_keys d2 = true ->
  dict_get (dict_update d1 d2) k =
  match dict_get d2 k with
  | Some v => Some v
  | None => dict_get d1 k
  end.
Proof.
  unfold dict_update. revert d1.
  induction d2 as [|[k0 v0] d2 IH]; intros d1 Hu; simpl; [reflexivity|].
  simpl in Hu. apply andb_prop in Hu as [Hfresh Hu].
  apply negb_true_iff in Hfresh.
  rewrite (IH _ Hu).
  destruct (String.eqb k k0) eqn:E.
  - apply String.eqb_eq in E; subst k0.
    rewrite (get_absent d2 k Hfresh). apply get_set_same.
  - now rewrite (get_set_other d1 k0 k v0 E).
Qed.

End Dict.
End DictFacts.

(** ** The runs of predict_stock *)

Module Predict.

Lemma same_normal_form (w : world) (s t : string) :
  normalize s = normalize t -> get_stock_symbol w s = get_stock_symbol w t.
Proof.
  intros H. unfold get_stock_symbol.
  change (Str.upper (Str.strip s)) with (normalize s).
  change (Str.upper (Str.strip t)) with (normalize t).
  now rewrite H.
Qed.

Lemma resolver_on_stripped (w : world) (s : string) :
  get_stock_symbol w (Str.strip s) = get_stock_symbol w s.
Proof. apply same_normal_form, TextMore.normalize_strip. Qed.

Lemma resolver_calls (w : world) (s : string) :
  outbound_calls (trace_of (get_stock_symbol w s))
  = [History (normalize s) "1d"].
Proof.
  destruct (Resolver.trace_shape w s) as (logs & -> & Hlogs).
  unfold outbound_calls in *. cbn [filter is_outbound]. now rewrite Hlogs.
Qed.

Lemma bind_ret {A B} (a : A) (k : A -> M B) : bind (ret a) k = k a.
Proof. unfold bind, ret. now destruct (k a). Qed.

Lemma calls_app (tr tr' : list event) :
  outbound_calls (tr ++ tr') = (outbound_calls tr ++ outbound_calls tr')%list.
Proof. apply filter_app. Qed.

Section Route.
Variable repr : value -> string.
Variable format_exc : exn -> string.

Ltac step :=
  match goal with
  | |- context [match dict_get ?d "predicted_next_day_close" with _ => _ end] =>
      destruct (dict_get d "predicted_next_day_close") eqn:?
  | |- context [match as_number ?v with _ => _ end] =>
      destruct (as_number v) eqn:?
  | |- context [match ?v with VNone => _ | _ => _ end] =>
      destruct v
  end.

Lemma body_runs (w : world) (input : string) :
  body_run w input (predict_body repr w input).
Proof.
  unfold predict_body.
  destruct (get_stock_symbol w input) as [[symbol|e] tr] eqn:Hsym;
    cbn [bind]; [|now constructor].
  unfold Ticker_info, call_pipeline, call.
  destruct (yf_info w symbol) as [info|e] eqn:Hinfo; cbn [bind];
    [|now apply run_info_failed].
  destruct (run_full_pipeline w symbol WINDOW_SIZE PREDICTION_DAYS)
    as [result|e] eqn:Hpipe; cbn [bind app];
    [|now apply (run_pipeline_failed w input symbol tr info)].
  unfold dict_item, value_format_2f, value_gt, logging_info, emit, ret, raise.
  destruct (dict_get result "actual_last_close") as [actual|] eqn:Hactual;
    cbn [bind app]; [|eapply run_data_error; eassumption].
  fold (price_of info actual).
  repeat (step; cbn [bind app]);
    solve [ eapply run_data_error; eassumption
          | eapply (run_completed w input symbol tr info result actual);
            eassumption ].
Qed.

(** Past the guard, the route is the [try] statement on the trimmed
    text. *)
Lemma present_input (w : world) (req : request) (s : string) :
  stock_input req s ->
  predict_stock repr format_exc w req
  = try_except (predict_body repr w (Str.strip s))
               (route_error_handler format_exc).
Proof.
  intros (d & -> & Hd & Hs). unfold predict_stock. cbn [request_json].
  rewrite bind_ret.
  destruct d as [|kv d]; [discriminate|]. cbn [truthy].
  unfold value_get. rewrite Hd, bind_ret. cbn [value_strip].
  rewrite bind_ret. cbn [truthy]. now rewrite Hs.
Qed.

End Route.
End Predict.

(** ** Properties of predict_stock past the guard *)

Module Run.
Section Route.
Variable repr : value -> string.
Variable format_exc : exn -> string.

(** What the resolver did in a run on the trimmed text, told on the text
    itself. *)
Lemma resolved (w : world) (s : string) (r : py_result string)
      (tr : list event) :
  get_stock_symbol w (Str.strip s) = (r, tr) ->
  result_of (get_stock_symbol w s) = r
  /\ outbound_calls tr = [History (normalize s) "1d"].
Proof.
  intros H. rewrite <- (Predict.resolver_on_stripped w s).
  pose proof (Predict.resolver_calls w (Str.strip s)) as Hc.
  rewrite TextMore.normalize_strip in Hc.
  rewrite H in *. now split.
Qed.

(** The answer of the route when the [try] body raises [e]. *)
Lemma raised (w : world) (req : request) (s : string) (e : exn)
      (tr : list event) :
  stock_input req s ->
  predict_body repr w (Str.strip s) = (Raise e, tr) ->
  result_of (predict_stock repr format_exc w req)
  = Return (mkResponse 500 (VDict [("error", VStr (exn_str e))]))
  /\ outbound_calls (trace_of (predict_stock repr format_exc w req))
     = outbound_calls tr.
Proof.
  intros Hin Hbody.
  rewrite (Predict.present_input repr format_exc w req s Hin), Hbody.
  cbn. split; [reflexivity|].
  rewrite Predict.calls_app. cbn. apply app_nil_r.
Qed.

(** How the route answers past the guard: with the response of the [try]
    body, which is a 200, or with the 500 built from the exception that
    ended the body, after the route logged it. *)
Lemma answer (w : world) (req : request) (s : string) :
  stock_input req s ->
  (exists resp tr,
      predict_body repr w (Str.strip s) = (Return resp, tr)
      /\ status resp = 200%Z
      /\ predict_stock repr format_exc w req = (Return resp, tr))
  \/ (exists e tr0,
         predict_body repr w (Str.strip s) = (Raise e, tr0)
         /\ predict_stock repr format_exc w req
            = (Return (mkResponse 500 (VDict [("error", VStr (exn_str e))])),
               (tr0 ++ [Log ERROR
                          ("Error in /predict route: " ++ exn_str e
                           ++ String (ascii_of_N 10) (format_exc e))])%list)).
Proof.
  intros Hin. rewrite (Predict.present_input repr format_exc w req s Hin).
  pose proof (Predict.body_runs repr w (Str.strip s)) as Hrun.
  destruct (predict_body repr w (Str.strip s)) as [[resp|e] tr] eqn:Hbody.
  - left. exists resp, tr. split; [reflexivity|].
    split; [|reflexivity]. inversion Hrun; subst. reflexivity.
  - right. exists e, tr. split; reflexivity.
Qed.

End Route.
End Run.

(** X1: for a request whose 'stock' field is a non-blank string,
    predict_stock always produces a response and no exception leaves it:
    the 200 response of the try body when the body returns, and, when the
    body ends with an exception e, the 500 response with the body
    {"error": str(e)} for that very e, after the route logged it at level
    ERROR. *)
Theorem predict_answers_200_or_500
  (repr : value -> string) (format_exc : exn -> string)
  (w : world) (req : request) (s : string) :
  stock_input req s ->
  exists resp tr,
    predict_stock repr format_exc w req = (Return resp, tr)
    /\ ((status resp = 200%Z
         /\ predict_body repr w (Str.strip s) = (Return resp, tr))
        \/ exists e tr0,
             predict_body repr w (Str.strip s) = (Raise e, tr0)
             /\ resp = mkResponse 500 (VDict [("error", VStr (exn_str e))])
             /\ tr = (tr0 ++ [Log ERROR
                                ("Error in /predict route: " ++ exn_str e
                                 ++ String (ascii_of_N 10) (format_exc e))])%list).
Proof.
  intros Hin.
  destruct (Run.answer repr format_exc w req s Hin)
    as [(resp & tr & Hbody & H200 & Hrun) | (e & tr0 & Hbody & Hrun)].
  - exists resp, tr. split; [exact Hrun|]. left. now split.
  - eexists; eexists. split; [exact Hrun|]. right.
    exists e, tr0. repeat split. exact Hbody.
Qed.

Lemma predict_answers_200_or_500_witness :
  result_of
    (predict_stock (fun _ => "") (fun _ => "trace") world_down
       (mkRequest (VDict [("stock", VStr " apple ")])))
  = Return (mkResponse 500 (VDict [("error", VStr "Max retries exceeded")])).
Proof.
  destruct (predict_answers_200_or_500
              (fun _ => "") (fun _ => "trace") world_down
              (mkRequest (VDict [("stock", VStr " apple ")])) " apple ")
    as (resp & tr & Hrun & [[_ Hbody] | (e & tr0 & Hbody & Hresp & _)]).
  - eexists. split; [reflexivity|]. split; reflexivity.
  - discriminate Hbody.
  - rewrite Hrun, Hresp. injection Hbody as <- _. reflexivity.
Defined.

(** X2: past the guard, predict_stock calls its collaborators in one order
    and stops at the first failure: the history query for the normalized
    text; then, only if the resolver returned a symbol, the company data of
    that symbol; then, only if that call returned, the pipeline on that
    symbol with window 60 and 1 prediction day. *)
Theorem predict_calls_in_order
  (repr : value -> string) (format_exc : exn -> string)
  (w : world) (req : request) (s : string) :
  stock_input req s ->
  (outbound_calls (trace_of (predict_stock repr format_exc w req))
   = [History (normalize s) "1d"]
   /\ exists e, result_of (get_stock_symbol w s) = Raise e)
  \/ exists symbol,
       result_of (get_stock_symbol w s) = Return symbol
       /\ ((outbound_calls (trace_of (predict_stock repr format_exc w req))
            = [History (normalize s) "1d"; TickerInfo symbol]
            /\ exists e, yf_info w symbol = Raise e)
           \/ (outbound_calls (trace_of (predict_stock repr format_exc w req))
               = [History (normalize s) "1d"; TickerInfo symbol;
                  Pipeline symbol WINDOW_SIZE PREDICTION_DAYS]
               /\ exists info, yf_info w symbol = Return info)).
Proof.
  intros Hin. rewrite (Predict.present_input repr format_exc w req s Hin).
  destruct (Predict.body_runs repr w (Str.strip s)) as
    [e tr Hsym | symbol tr e Hsym Hinfo | symbol tr info e Hsym Hinfo Hpipe
     | symbol tr info result e Hsym Hinfo Hpipe
     | symbol tr info result actual summary msg Hsym Hinfo Hpipe Hactual];
    destruct (Run.resolved w s _ tr Hsym) as [Hres Hcalls];
    cbn [try_except route_error_handler bind logging_error emit ret
         trace_of snd];
    rewrite ?Predict.calls_app, Hcalls; cbn.
  - left. eauto.
  - right. exists symbol. split; [exact Hres|]. left. eauto.
  - right. exists symbol. split; [exact Hres|]. right. eauto.
  - right. exists symbol. split; [exact Hres|]. right. eauto.
  - right. exists symbol. split; [exact Hres|]. right. eauto.
Qed.

Lemma predict_calls_in_order_witness :
  outbound_calls
    (trace_of (predict_stock (fun _ => "") (fun _ => "")
                 (world_serving [] [] [])
                 (mkRequest (VDict [("stock", VStr "apple")]))))
  = [History "APPLE" "1d"; TickerInfo "AAPL";
     Pipeline "AAPL" WINDOW_SIZE PREDICTION_DAYS].
Proof.
  destruct (predict_calls_in_order
              (fun _ => "") (fun _ => "") (world_serving [] [] [])
              (mkRequest (VDict [("stock", VStr "apple")])) "apple")
    as [[_ [e He]] | (symbol & Hsym & [[_ [e He]] | [Hcalls _]])].
  - eexists. split; [reflexivity|]. split; reflexivity.
  - discriminate He.
  - injection Hsym as <-. discriminate He.
  - injection Hsym as <-. exact Hcalls.
Defined.

(** X3: when the text resolves neither directly nor through the alias table,
    /predict answers 500 (not a 4xx) with the resolver's message as the
    error, and the history query is the only outbound call: no company data
    is fetched and the pipeline is not run. *)
Theorem unresolved_symbol_answers_500
  (repr : value -> string) (format_exc : exn -> string)
  (w : world) (req : request) (s : string) :
  stock_input req s ->
  unrecognized w (normalize s) ->
  dict_get common_mappings (normalize s) = None ->
  result_of (predict_stock repr format_exc w req)
  = Return (mkResponse 500
              (VDict [("error", VStr (not_found_message (normalize s)))]))
  /\ outbound_calls (trace_of (predict_stock repr format_exc w req))
     = [History (normalize s) "1d"].
Proof.
  intros Hin Hun Hk.
  destruct (get_stock_symbol w (Str.strip s)) as [r tr] eqn:Hsym.
  destruct (Run.resolved w s r tr Hsym) as [Hres Hcalls].
  rewrite (Resolver.unrecognized_result w s Hun) in Hres.
  unfold fallback_result in Hres. rewrite Hk in Hres. subst r.
  assert (Hbody : predict_body repr w (Str.strip s)
                  = (Raise (ValueError (not_found_message (normalize s))), tr))
    by (unfold predict_body; now rewrite Hsym).
  destruct (Run.raised repr format_exc w req s _ tr Hin Hbody) as [-> ->].
  split; [reflexivity | exact Hcalls].
Qed.

Lemma unresolved_symbol_answers_500_witness :
  result_of (predict_stock (fun _ => "") (fun _ => "")
               (world_knowing ["MSFT"])
               (mkRequest (VDict [("stock", VStr "Nonexistent Corp")])))
  = Return (mkResponse 500
              (VDict [("error",
                       VStr "Could not find a ticker symbol for 'NONEXISTENT CORP'. Please try a valid stock symbol like AAPL, GOOGL, etc.")])).
Proof.
  apply (unresolved_symbol_answers_500
           (fun _ => "") (fun _ => "") (world_knowing ["MSFT"])
           (mkRequest (VDict [("stock", VStr "Nonexistent Corp")]))
           "Nonexistent Corp").
  - eexists. split; [reflexivity|]. split; reflexivity.
  - left. exists (mkFrame 0 7). split; reflexivity.
  - reflexivity.
Defined.

(** X4: when the company-data call for the resolved symbol raises e,
    /predict answers 500 with str(e) as the error and the pipeline is never
    run. *)
Theorem info_failure_answers_500
  (repr : value -> string) (format_exc : exn -> string)
  (w : world) (req : request) (s symbol : string) (e : exn) :
  stock_input req s ->
  result_of (get_stock_symbol w s) = Return symbol ->
  yf_info w symbol = Raise e ->
  result_of (predict_stock repr format_exc w req)
  = Return (mkResponse 500 (VDict [("error", VStr (exn_str e))]))
  /\ outbound_calls (trace_of (predict_stock repr format_exc w req))
     = [History (normalize s) "1d"; TickerInfo symbol].
Proof.
  intros Hin Hres Hinfo.
  destruct (get_stock_symbol w (Str.strip s)) as [r tr] eqn:Hsym.
  destruct (Run.resolved w s r tr Hsym) as [Hres' Hcalls].
  rewrite Hres in Hres'. subst r.
  assert (Hbody : predict_body repr w (Str.strip s)
                  = (Raise e, (tr ++ [TickerInfo symbol])%list)).
  { unfold predict_body. rewrite Hsym. cbn [bind].
    unfold Ticker_info, call. now rewrite Hinfo. }
  destruct (Run.raised repr format_exc w req s _ _ Hin Hbody) as [-> ->].
  split; [reflexivity|].
  now rewrite Predict.calls_app, Hcalls.
Qed.

Lemma info_failure_answers_500_witness :
  result_of (predict_stock (fun _ => "") (fun _ => "") world_down
               (mkRequest (VDict [("stock", VStr "apple")])))
  = Return (mkResponse 500 (VDict [("error", VStr "Max retries exceeded")]))
  /\ outbound_calls
       (trace_of (predict_stock (fun _ => "") (fun _ => "") world_down
                    (mkRequest (VDict [("stock", VStr "apple")]))))
     = [History "APPLE" "1d"; TickerInfo "AAPL"].
Proof.
  apply (info_failure_answers_500
           (fun _ => "") (fun _ => "") world_down
           (mkRequest (VDict [("stock", VStr "apple")]))
           "apple" "AAPL" connection_error).
  - eexists. split; [reflexivity|]. split; reflexivity.
  - reflexivity.
  - reflexivity.
Defined.

(** X5: when the pipeline raises e for the resolved symbol, /predict
    answers 500 with str(e) as the error, after exactly the three calls. *)
Theorem pipeline_failure_answers_500
  (repr : value -> string) (format_exc : exn -> string)
  (w : world) (req : request) (s symbol : string) (info : dict value)
  (e : exn) :
  stock_input req s ->
  result_of (get_stock_symbol w s) = Return symbol ->
  yf_info w symbol = Return info ->
  run_full_pipeline w symbol WINDOW_SIZE PREDICTION_DAYS = Raise e ->
  result_of (predict_stock repr format_exc w req)
  = Return (mkResponse 500 (VDict [("error", VStr (exn_str e))]))
  /\ outbound_calls (trace_of (predict_stock repr format_exc w req))
     = [History (normalize s) "1d"; TickerInfo symbol;
        Pipeline symbol WINDOW_SIZE PREDICTION_DAYS].
Proof.
  intros Hin Hres Hinfo Hpipe.
  destruct (get_stock_symbol w (Str.strip s)) as [r tr] eqn:Hsym.
  destruct (Run.resolved w s r tr Hsym) as [Hres' Hcalls].
  rewrite Hres in Hres'. subst r.
  assert (Hbody : predict_body repr w (Str.strip s)
                  = (Raise e,
                     (tr ++ [TickerInfo symbol;
                             Pipeline symbol WINDOW_SIZE PREDICTION_DAYS])%list)).
  { unfold predict_body. rewrite Hsym. cbn [bind].
    unfold Ticker_info, call_pipeline, call. rewrite Hinfo. cbn [bind].
    now rewrite Hpipe. }
  destruct (Run.raised repr format_exc w req s _ _ Hin Hbody) as [-> ->].
  split; [reflexivity|].
  now rewrite Predict.calls_app, Hcalls.
Qed.

Lemma pipeline_failure_answers_500_witness :
  result_of
    (predict_stock (fun _ => "") (fun _ => "")
       (mkWorld (fun _ _ => Return (mkFrame 1 7)) (fun _ => Return [])
                (fun _ _ _ => Raise (ValueError "Not enough data")))
       (mkRequest (VDict [("stock", VStr "msft")])))
  = Return (mkResponse 500 (VDict [("error", VStr "Not enough data")])).
Proof.
  apply (pipeline_failure_answers_500
           (fun _ => "") (fun _ => "")
           (mkWorld (fun _ _ => Return (mkFrame 1 7)) (fun _ => Return [])
                    (fun _ _ _ => Raise (ValueError "Not enough data")))
           (mkRequest (VDict [("stock", VStr "msft")]))
           "msft" "MSFT" [] (ValueError "Not enough data")).
  - eexists. split; [reflexivity|]. split; reflexivity.
  - reflexivity.
  - reflexivity.
  - reflexivity.
Defined.

Module Data.
Section Route.
Variable repr : value -> string.

(** The [try] body once the three calls have returned: what is left works
    on the two dictionaries alone. *)
Lemma after_calls (w : world) (input symbol : string) (tr : list event)
      (info result : dict value) :
  get_stock_symbol w input = (Return symbol, tr) ->
  yf_info w symbol = Return info ->
  run_full_pipeline w symbol WINDOW_SIZE PREDICTION_DAYS = Return result ->
  forall e,
    (dict_get result "actual_last_close" = None
     /\ e = KeyError "actual_last_close")
    \/ (exists actual,
          dict_get result "actual_last_close" = Some actual
          /\ value_format_2f (price_of info actual) = (Raise e, [])) ->
    predict_body repr w input
    = (Raise e,
       (tr ++ [TickerInfo symbol;
               Pipeline symbol WINDOW_SIZE PREDICTION_DAYS])%list).
Proof.
  intros Hsym Hinfo Hpipe e Hcase.
  unfold predict_body. rewrite Hsym. cbn [bind].
  unfold Ticker_info, call_pipeline, call. rewrite Hinfo. cbn [bind].
  rewrite Hpipe. cbn [bind app]. unfold dict_item at 1.
  destruct Hcase as [[Hnone ->] | (actual & Hsome & Hfmt)].
  - rewrite Hnone. reflexivity.
  - rewrite Hsome. rewrite Predict.bind_ret.
    fold (price_of info actual). rewrite Hfmt. reflexivity.
Qed.

End Route.
End Data.

(** X6: when the dictionary returned by the pipeline has no
    'actual_last_close', /predict answers 500 with the error
    "'actual_last_close'" (the text of the KeyError), whether or not the
    company data holds a 'currentPrice': the default passed to info.get is
    evaluated first. *)
Theorem missing_last_close_answers_500
  (repr : value -> string) (format_exc : exn -> string)
  (w : world) (req : request) (s symbol : string)
  (info result : dict value) :
  stock_input req s ->
  result_of (get_stock_symbol w s) = Return symbol ->
  yf_info w symbol = Return info ->
  run_full_pipeline w symbol WINDOW_SIZE PREDICTION_DAYS = Return result ->
  dict_get result "actual_last_close" = None ->
  result_of (predict_stock repr format_exc w req)
  = Return (mkResponse 500 (VDict [("error", VStr "'actual_last_close'")])).
Proof.
  intros Hin Hres Hinfo Hpipe Hnone.
  destruct (get_stock_symbol w (Str.strip s)) as [r tr] eqn:Hsym.
  destruct (Run.resolved w s r tr Hsym) as [Hres' _].
  rewrite Hres in Hres'. subst r.
  pose proof (Data.after_calls repr w _ symbol tr info result
                Hsym Hinfo Hpipe (KeyError "actual_last_close")
                (or_introl (conj Hnone eq_refl))) as Hbody.
  now destruct (Run.raised repr format_exc w req s _ _ Hin Hbody) as [-> _].
Qed.

Lemma missing_last_close_answers_500_witness :
  result_of
    (predict_stock (fun _ => "") (fun _ => "")
       (world_serving ["AAPL"] [("currentPrice", VNum (150 # 1))]
          [("predicted_next_day_close", VNum (151 # 1))])
       (mkRequest (VDict [("stock", VStr "aapl")])))
  = Return (mkResponse 500 (VDict [("error", VStr "'actual_last_close'")])).
Proof.
  apply (missing_last_close_answers_500
           (fun _ => "") (fun _ => "")
           (world_serving ["AAPL"] [("currentPrice", VNum (150 # 1))]
              [("predicted_next_day_close", VNum (151 # 1))])
           (mkRequest (VDict [("stock", VStr "aapl")]))
           "aapl" "AAPL" [("currentPrice", VNum (150 # 1))]
           [("predicted_next_day_close", VNum (151 # 1))]).
  - eexists. split; [reflexivity|]. split; reflexivity.
  - reflexivity.
  - reflexivity.
  - reflexivity.
  - reflexivity.
Defined.

(** X7: when the current price (the 'currentPrice' of the company data if
    the key is there, else the last close) is not a number, for instance
    None, /predict answers 500 with the text of the formatting error. *)
Theorem unformattable_price_answers_500
  (repr : value -> string) (format_exc : exn -> string)
  (w : world) (req : request) (s symbol : string)
  (info result : dict value) (actual : value) :
  stock_input req s ->
  result_of (get_stock_symbol w s) = Return symbol ->
  yf_info w symbol = Return info ->
  run_full_pipeline w symbol WINDOW_SIZE PREDICTION_DAYS = Return result ->
  dict_get result "actual_last_close" = Some actual ->
  as_number (price_of info actual) = None ->
  result_of (predict_stock repr format_exc w req)
  = Return
      (mkResponse 500
         (VDict
            [("error",
              VStr (if is_str (price_of info actual)
                    then "Unknown format code 'f' for object of type 'str'"
                    else "unsupported format string passed to "
                         ++ type_name (price_of info actual)
                         ++ ".__format__"))])).
Proof.
  intros Hin Hres Hinfo Hpipe Hactual Hnan.
  destruct (get_stock_symbol w (Str.strip s)) as [r tr] eqn:Hsym.
  destruct (Run.resolved w s r tr Hsym) as [Hres' _].
  rewrite Hres in Hres'. subst r.
  assert (Hfmt : exists e,
             value_format_2f (price_of info actual) = (Raise e, [])
             /\ exn_str e =
                (if is_str (price_of info actual)
                 then "Unknown format code 'f' for object of type 'str'"
                 else "unsupported format string passed to "
                      ++ type_name (price_of info actual) ++ ".__format__")).
  { unfold value_format_2f. rewrite Hnan.
    destruct (price_of info actual); eexists; split; reflexivity. }
  destruct Hfmt as (e & Hfmt & Hmsg).
  pose proof (Data.after_calls repr w _ symbol tr info result
                Hsym Hinfo Hpipe e
                (or_intror (ex_intro _ actual (conj Hactual Hfmt)))) as Hbody.
  destruct (Run.raised repr format_exc w req s _ _ Hin Hbody) as [-> _].
  now rewrite Hmsg.
Qed.

Lemma unformattable_price_answers_500_witness :
  result_of
    (predict_stock (fun _ => "") (fun _ => "")
       (world_serving ["AAPL"] [("currentPrice", VNone)]
          [("predicted_next_day_close", VNum (151 # 1));
           ("actual_last_close", VNum (150 # 1))])
       (mkRequest (VDict [("stock", VStr "aapl")])))
  = Return
      (mkResponse 500
         (VDict [("error",
                  VStr "unsupported format string passed to NoneType.__format__")])).
Proof.
  apply (unformattable_price_answers_500
           (fun _ => "") (fun _ => "")
           (world_serving ["AAPL"] [("currentPrice", VNone)]
              [("predicted_next_day_close", VNum (151 # 1));
               ("actual_last_close", VNum (150 # 1))])
           (mkRequest (VDict [("stock", VStr "aapl")]))
           "aapl" "AAPL" [("currentPrice", VNone)]
           [("predicted_next_day_close", VNum (151 # 1));
            ("actual_last_close", VNum (150 # 1))]
           (VNum (150 # 1))).
  - eexists. split; [reflexivity|]. split; reflexivity.
  - reflexivity.
  - reflexivity.
  - reflexivity.
  - reflexivity.
  - reflexivity.
Defined.

(** X8: when the symbol resolves, both calls return, the pipeline result
    holds numeric 'actual_last_close' and 'predicted_next_day_close' and the
    current price is numeric, /predict answers 200; 'current_price' is the
    'currentPrice' of the company data if the key is there and the last
    close otherwise; the summary names the company ('longName', else the
    symbol), quotes both prices with two decimals, and says "increase" only
    when the prediction is strictly above the current price ("decrease"
    also when they are equal). *)
Theorem successful_prediction_response
  (repr : value -> string) (format_exc : exn -> string)
  (w : world) (req : request) (s symbol : string)
  (info result : dict value) (actual predicted : value) (cq pq : Q) :
  stock_input req s ->
  result_of (get_stock_symbol w s) = Return symbol ->
  yf_info w symbol = Return info ->
  run_full_pipeline w symbol WINDOW_SIZE PREDICTION_DAYS = Return result ->
  dict_get result "actual_last_close" = Some actual ->
  dict_get result "predicted_next_day_close" = Some predicted ->
  as_number (price_of info actual) = Some cq ->
  as_number predicted = Some pq ->
  exists d tr,
    predict_stock repr format_exc w req
    = (Return (mkResponse 200 (VDict d)), tr)
    /\ dict_get d "current_price" = Some (price_of info actual)
    /\ dict_get d "summary"
       = Some (VStr ((str_of repr (name_of info symbol) ++ " (" ++ symbol
                      ++ ") is currently trading at $" ++ format_2f cq ++ ". ")
                     ++ (if Qle_bool pq cq
                         then "The model predicts a potential decrease to $"
                         else "The model predicts a potential increase to $")
                     ++ format_2f pq ++ " tomorrow."))
    /\ outbound_calls tr
       = [History (normalize s) "1d"; TickerInfo symbol;
          Pipeline symbol WINDOW_SIZE PREDICTION_DAYS].
Proof.
  intros Hin Hres Hinfo Hpipe Hactual Hpred Hcq Hpq.
  destruct (get_stock_symbol w (Str.strip s)) as [r tr] eqn:Hsym.
  destruct (Run.resolved w s r tr Hsym) as [Hres' Hcalls].
  rewrite Hres in Hres'. subst r.
  rewrite (Predict.present_input repr format_exc w req s Hin).
  unfold predict_body. rewrite Hsym. cbn [bind].
  unfold Ticker_info, call_pipeline, call. rewrite Hinfo. cbn [bind].
  rewrite Hpipe. cbn [bind app].
  unfold dict_item, value_format_2f, value_gt. rewrite Hactual, Hpred.
  unfold price_of in Hcq.
  repeat (rewrite Predict.bind_ret; try rewrite Hcq; try rewrite Hpq).
  fold (price_of info actual). fold (name_of info symbol).
  unfold logging_info, emit, ret, bind, try_except, jsonify.
  eexists; eexists. split; [reflexivity|].
  split; [apply DictFacts.get_set_same|].
  split.
  - rewrite DictFacts.get_set_other by reflexivity.
    rewrite DictFacts.get_set_same.
    now destruct (Qle_bool pq cq).
  - rewrite !Predict.calls_app, Hcalls. reflexivity.
Qed.

Lemma successful_prediction_response_witness :
  exists d tr,
    predict_stock (fun _ => "") (fun _ => "")
      (world_serving ["AAPL"] [("longName", VStr "Apple Inc.")]
         [("predicted_next_day_close", VNum (1495 # 10));
          ("actual_last_close", VNum (1495 # 10))])
      (mkRequest (VDict [("stock", VStr " aapl ")]))
    = (Return (mkResponse 200 (VDict d)), tr)
    /\ dict_get d "current_price" = Some (VNum (1495 # 10))
    /\ dict_get d "summary"
       = Some (VStr "Apple Inc. (AAPL) is currently trading at $149.50. The model predicts a potential decrease to $149.50 tomorrow.").
Proof.
  destruct (successful_prediction_response
              (fun _ => "") (fun _ => "")
              (world_serving ["AAPL"] [("longName", VStr "Apple Inc.")]
                 [("predicted_next_day_close", VNum (1495 # 10));
                  ("actual_last_close", VNum (1495 # 10))])
              (mkRequest (VDict [("stock", VStr " aapl ")]))
              " aapl " "AAPL" [("longName", VStr "Apple Inc.")]
              [("predicted_next_day_close", VNum (1495 # 10));
               ("actual_last_close", VNum (1495 # 10))]
              (VNum (1495 # 10)) (VNum (1495 # 10)) (1495 # 10) (1495 # 10))
    as (d & tr & Hrun & Hprice & Hsummary & _).
  - eexists. split; [reflexivity|]. split; reflexivity.
  - reflexivity.
  - reflexivity.
  - reflexivity.
  - reflexivity.
  - reflexivity.
  - reflexivity.
  - reflexivity.
  - exists d, tr. split; [exact Hrun|]. split; [exact Hprice | exact Hsummary].
Defined.

(** X9: in a 200 response, every field of the pipeline result other than
    'summary' and 'current_price' is passed through with the pipeline's
    value; this includes a 'symbol' field, which replaces the resolved
    symbol, and the resolved symbol is reported only when the pipeline
    result has no such field. *)
Theorem pipeline_fields_pass_through
  (repr : value -> string) (format_exc : exn -> string)
  (w : world) (req : request) (s symbol : string)
  (result d : dict value) :
  stock_input req s ->
  result_of (get_stock_symbol w s) = Return symbol ->
  run_full_pipeline w symbol WINDOW_SIZE PREDICTION_DAYS = Return result ->
  unique_keys result = true ->
  result_of (predict_stock repr format_exc w req)
  = Return (mkResponse 200 (VDict d)) ->
  (forall k v,
      dict_get result k = Some v ->
      String.eqb k "summary" = false ->
      String.eqb k "current_price" = false ->
      dict_get d k = Some v)
  /\ (dict_get result "symbol" = None ->
      dict_get d "symbol" = Some (VStr symbol)).
Proof.
  intros Hin Hres Hpipe Huniq H200.
  rewrite (Predict.present_input repr format_exc w req s Hin) in H200.
  destruct (Predict.body_runs repr w (Str.strip s)) as
    [e tr Hsym | symbol' tr e Hsym Hinfo | symbol' tr info e Hsym Hinfo Hpipe'
     | symbol' tr info result' e Hsym Hinfo Hpipe'
     | symbol' tr info result' actual summary msg Hsym Hinfo Hpipe' Hactual];
    cbn in H200; try discriminate H200.
  destruct (Run.resolved w s _ tr Hsym) as [Hres' _].
  rewrite Hres in Hres'. injection Hres' as <-.
  rewrite Hpipe in Hpipe'. injection Hpipe' as <-.
  injection H200 as <-.
  split.
  - intros k v Hk Hs Hc.
    rewrite DictFacts.get_set_other by exact Hc.
    rewrite DictFacts.get_set_other by exact Hs.
    rewrite (DictFacts.get_update _ result k Huniq). now rewrite Hk.
  - intros Hnone.
    rewrite DictFacts.get_set_other by reflexivity.
    rewrite DictFacts.get_set_other by reflexivity.
    rewrite (DictFacts.get_update _ result "symbol" Huniq). now rewrite Hnone.
Qed.

Lemma pipeline_fields_pass_through_witness :
  exists d,
    result_of
      (predict_stock (fun _ => "") (fun _ => "")
         (world_serving ["AAPL"] []
            [("symbol", VStr "AAPL.US");
             ("predicted_next_day_close", VNum (151 # 1));
             ("actual_last_close", VNum (150 # 1))])
         (mkRequest (VDict [("stock", VStr "aapl")])))
    = Return (mkResponse 200 (VDict d))
    /\ dict_get d "symbol" = Some (VStr "AAPL.US")
    /\ dict_get d "actual_last_close" = Some (VNum (150 # 1)).
Proof.
  eexists. split; [reflexivity|].
  pose proof (pipeline_fields_pass_through
                (fun _ => "") (fun _ => "")
                (world_serving ["AAPL"] []
                   [("symbol", VStr "AAPL.US");
                    ("predicted_next_day_close", VNum (151 # 1));
                    ("actual_last_close", VNum (150 # 1))])
                (mkRequest (VDict [("stock", VStr "aapl")]))
                "aapl" "AAPL"
                [("symbol", VStr "AAPL.US");
                 ("predicted_next_day_close", VNum (151 # 1));
                 ("actual_last_close", VNum (150 # 1))]
                _
                (ex_intro _ _ (conj eq_refl (conj eq_refl eq_refl)))
                eq_refl eq_refl eq_refl eq_refl) as [Hpass _].
  split; apply Hpass; reflexivity.
Defined.

(** X10: 400 is the answer of the guard alone, and every failure past the
    guard is a 500: whenever predict_stock answers with status 400, the
    request has a falsy document, or no 'stock' field, or a 'stock' string
    that is blank once trimmed; and for a request with a non-blank 'stock'
    string the answer is the 200 of the try body or, when the body ends
    with an exception e, the 500 with {"error": str(e)}. *)
Theorem only_absent_input_answers_400
  (repr : value -> string) (format_exc : exn -> string)
  (w : world) (req : request) (resp : response) :
  result_of (predict_stock repr format_exc w req) = Return resp ->
  (status resp = 400%Z -> stock_input_absent req)
  /\ (forall s,
        stock_input req s ->
        (status resp = 200%Z
         /\ exists tr, predict_body repr w (Str.strip s) = (Return resp, tr))
        \/ (exists e tr,
               predict_body repr w (Str.strip s) = (Raise e, tr)
               /\ resp = mkResponse 500
                           (VDict [("error", VStr (exn_str e))]))).
Proof.
  intros Hrun.
  assert (Hpast : forall s,
             stock_input req s ->
             (status resp = 200%Z
              /\ exists tr,
                   predict_body repr w (Str.strip s) = (Return resp, tr))
             \/ (exists e tr,
                    predict_body repr w (Str.strip s) = (Raise e, tr)
                    /\ resp = mkResponse 500
                                (VDict [("error", VStr (exn_str e))]))).
  { intros s Hin.
    destruct (Run.answer repr format_exc w req s Hin)
      as [(resp' & tr & Hbody & H200 & Hans) | (e & tr0 & Hbody & Hans)];
      rewrite Hans in Hrun; injection Hrun as <-.
    - left. split; [exact H200 | now exists tr].
    - right. now exists e, tr0. }
  split; [|exact Hpast].
  intros H400. destruct req as [j | e]; [|discriminate Hrun].
  destruct (truthy j) eqn:Htruthy; [|now apply body_missing].
  destruct j as [| b | q | t | l | d];
    try (unfold predict_stock in Hrun; cbn [request_json] in Hrun;
         rewrite Predict.bind_ret, Htruthy in Hrun; discriminate Hrun).
  destruct (dict_get d "stock") as [v|] eqn:Hd; [|now apply field_missing].
  destruct v as [| b | q | t | l | d'];
    try (unfold predict_stock, value_get in Hrun;
         cbn [request_json] in Hrun;
         rewrite Predict.bind_ret, Htruthy, Hd, Predict.bind_ret in Hrun;
         discriminate Hrun).
  destruct (String.eqb (Str.strip t) "") eqn:Hblank.
  - apply (field_blank d t Hd). now apply String.eqb_eq.
  - assert (Hin : stock_input (mkRequest (VDict d)) t)
      by (exists d; repeat split; assumption).
    destruct (Hpast t Hin) as [[H200 _] | (e & tr & _ & ->)].
    + rewrite H200 in H400. discriminate H400.
    + discriminate H400.
Qed.

Lemma only_absent_input_answers_400_witness :
  stock_input_absent (mkRequest (VDict [("name", VStr "apple")])).
Proof.
  apply (proj1 (only_absent_input_answers_400
                  (fun _ => "") (fun _ => "") world_down
                  (mkRequest (VDict [("name", VStr "apple")]))
                  (mkResponse 400
                     (VDict [("error", VStr "Stock input required")]))
                  eq_refl)).
  reflexivity.
Defined.

(** X11: a JSON document that is truthy and not an object (a non-empty
    array or string, a non-zero number, true) makes predict_stock raise
    AttributeError (on [.get]) before the guard and outside the try: no
    response is built, nothing is logged and nothing is called. *)
Theorem non_object_body_raises
  (repr : value -> string) (format_exc : exn -> string)
  (w : world) (document : value) :
  truthy document = true ->
  is_dict document = false ->
  exists e,
    predict_stock repr format_exc w (mkRequest document) = (Raise e, [])
    /\ exn_class e = "AttributeError".
Proof.
  intros Htruthy Hdict. unfold predict_stock. cbn [request_json].
  rewrite Predict.bind_ret, Htruthy.
  destruct document; try discriminate Hdict;
    eexists; split; reflexivity.
Qed.

Lemma non_object_body_raises_witness :
  exists e,
    predict_stock (fun _ => "") (fun _ => "") (world_knowing ["AAPL"])
      (mkRequest (VList [VStr "AAPL"]))
    = (Raise e, [])
    /\ exn_class e = "AttributeError".
Proof.
  apply (non_object_body_raises
           (fun _ => "") (fun _ => "") (world_knowing ["AAPL"])
           (VList [VStr "AAPL"])); reflexivity.
Defined.

(** X12: an object whose 'stock' field is not a string (null, a number, a
    list ...) makes predict_stock raise AttributeError on [.strip] before
    the guard and outside the try, with nothing logged and nothing called. *)
Theorem non_string_stock_raises
  (repr : value -> string) (format_exc : exn -> string)
  (w : world) (d : dict value) (v : value) :
  dict_get d "stock" = Some v ->
  is_str v = false ->
  exists e,
    predict_stock repr format_exc w (mkRequest (VDict d)) = (Raise e, [])
    /\ exn_class e = "AttributeError".
Proof.
  intros Hd Hstr. unfold predict_stock. cbn [request_json].
  rewrite Predict.bind_ret.
  destruct d as [|kv d]; [discriminate|]. cbn [truthy].
  unfold value_get. rewrite Hd, Predict.bind_ret.
  destruct v; try discriminate Hstr; eexists; split; reflexivity.
Qed.

Lemma non_string_stock_raises_witness :
  exists e,
    predict_stock (fun _ => "") (fun _ => "") (world_knowing ["AAPL"])
      (mkRequest (VDict [("stock", VNone)]))
    = (Raise e, [])
    /\ exn_class e = "AttributeError".
Proof.
  apply (non_string_stock_raises
           (fun _ => "") (fun _ => "") (world_knowing ["AAPL"])
           [("stock", VNone)] VNone); reflexivity.
Defined.

(** X13: /predict depends on the 'stock' text through its trimmed,
    uppercased form alone: two objects whose 'stock' strings have the same
    normalized form get the same response and the same trace, whatever else
    they hold. *)
Theorem predict_ignores_case_and_padding
  (repr : value -> string) (format_exc : exn -> string)
  (w : world) (d1 d2 : dict value) (s t : string) :
  dict_get d1 "stock" = Some (VStr s) ->
  dict_get d2 "stock" = Some (VStr t) ->
  normalize s = normalize t ->
  predict_stock repr format_exc w (mkRequest (VDict d1))
  = predict_stock repr format_exc w (mkRequest (VDict d2)).
Proof.
  intros H1 H2 Hnorm.
  pose proof (TextMore.same_blankness s t Hnorm) as Hblank.
  destruct (String.eqb (Str.strip s) "") eqn:Hs.
  - symmetry in Hblank. apply String.eqb_eq in Hs, Hblank.
    unfold predict_stock, value_get; cbn [request_json].
    rewrite !Predict.bind_ret.
    destruct d1 as [|kv1 d1]; [discriminate|].
    destruct d2 as [|kv2 d2]; [discriminate|].
    cbn [truthy]. rewrite H1, H2, !Predict.bind_ret. cbn [value_strip].
    rewrite !Predict.bind_ret, Hs, Hblank. reflexivity.
  - symmetry in Hblank.
    rewrite (Predict.present_input repr format_exc w _ s)
      by (exists d1; repeat split; assumption).
    rewrite (Predict.present_input repr format_exc w _ t)
      by (exists d2; repeat split; assumption).
    unfold predict_body.
    rewrite (Predict.resolver_on_stripped w s),
            (Predict.resolver_on_stripped w t),
            (Predict.same_normal_form w s t Hnorm).
    reflexivity.
Qed.

Lemma predict_ignores_case_and_padding_witness :
  predict_stock (fun _ => "") (fun _ => "") world_down
    (mkRequest (VDict [("stock", VStr "  Tesla")]))
  = predict_stock (fun _ => "") (fun _ => "") world_down
      (mkRequest (VDict [("user", VStr "x"); ("stock", VStr "TESLA ")])).
Proof.
  apply (predict_ignores_case_and_padding
           (fun _ => "") (fun _ => "") world_down
           [("stock", VStr "  Tesla")]
           [("user", VStr "x"); ("stock", VStr "TESLA ")]
           "  Tesla" "TESLA "); reflexivity.
Defined.

(** ** More properties of get_stock_symbol *)

(** X14: resolution is idempotent on the input: the normalized text
    resolves exactly as the text itself (same result, same trace), so a
    symbol returned by the direct lookup resolves to itself. *)
Theorem resolver_is_stable_on_normal_form (w : world) (s : string) :
  get_stock_symbol w (normalize s) = get_stock_symbol w s.
Proof. apply Predict.same_normal_form, TextMore.normalize_fixed. Qed.

(** X15: the log of a run tells its outcome: an ERROR record is written
    exactly when get_stock_symbol raises, a WARNING record exactly when the
    history query raised, and every run writes exactly one record that is
    not a warning. *)
Theorem resolver_log_matches_outcome (w : world) (s : string) :
  (existsb is_error_log (trace_of (get_stock_symbol w s)) = true
   <-> exists e, result_of (get_stock_symbol w s) = Raise e)
  /\ (existsb is_warning (trace_of (get_stock_symbol w s)) = true
      <-> exists e, yf_history w (normalize s) "1d" = Raise e)
  /\ List.length
       (filter (fun ev => negb (is_outbound ev) && negb (is_warning ev))
               (trace_of (get_stock_symbol w s)))
     = 1%nat.
Proof.
  destruct (yf_history w (normalize s) "1d") as [df|e] eqn:Hq.
  - destruct (empty df) eqn:He.
    + rewrite (Resolver.empty_path w s df Hq He).
      unfold fallback_result, fallback_log.
      destruct (dict_get common_mappings (normalize s)); cbn;
        repeat split; try discriminate; eauto;
        intros [e' He']; discriminate He'.
    + rewrite (Resolver.direct_path w s df Hq He). cbn.
      repeat split; try discriminate; intros [e' He']; discriminate He'.
  - rewrite (Resolver.raise_path w s e Hq).
    unfold fallback_result, fallback_log, warning_log.
    destruct (dict_get common_mappings (normalize s)); cbn;
      repeat split; try discriminate; eauto;
      intros [e' He']; discriminate He'.
Qed.

(** X16: no entry of the alias table is dead: each key is in normal form
    and occurs once, so typing a key the service does not recognize
    resolves to the value written next to it. *)
Theorem every_alias_is_reachable (w : world) (k v : string) :
  In (k, v) common_mappings ->
  unrecognized w k ->
  result_of (get_stock_symbol w k) = Return v.
Proof.
  intros Hin Hun.
  assert (H : normalize k = k /\ dict_get common_mappings k = Some v).
  { unfold common_mappings in Hin; cbn [In] in Hin.
    repeat (destruct Hin as [[= <- <-] | Hin]; [split; reflexivity|]).
    contradiction. }
  destruct H as [Hnorm Hget].
  rewrite <- Hnorm in Hun.
  rewrite (Resolver.unrecognized_result w k Hun).
  unfold fallback_result. now rewrite Hnorm, Hget.
Qed.

Lemma every_alias_is_reachable_witness :
  result_of (get_stock_symbol (world_knowing ["MSFT"]) "SALESFORCE")
  = Return "CRM".
Proof.
  apply (every_alias_is_reachable (world_knowing ["MSFT"]) "SALESFORCE" "CRM").
  - unfold common_mappings; cbn [In]. do 9 right. left. reflexivity.
  - left. exists (mkFrame 0 7). split; reflexivity.
Defined.
